(** * Document question answering and its dispatch layer

    A shallow embedding of [document_qna_tool] (app.py) and of
    [GradioUI.process_input] (Gradio_UI.py), with the properties of the
    specification proved about it.

    Python [str] values are [string]s, lists are [list]s.  Everything the
    program obtains from outside (PyMuPDF, the sentence encoder, the tensor
    library, the text-generation pipeline, the agent) is a field of a record
    of services.  Effects are threaded through an explicit [world]: the
    sequence of outside calls made so far and the document handles that are
    currently open. *)

From Stdlib Require Import String Ascii List ZArith Lia Bool Arith.
From Stdlib Require Import DecimalString.
Import ListNotations.
Local Open Scope string_scope.

(** ** Python strings *)

Module PyStr.

(** [str.isspace] on one character, for the code points below 256:
    TAB..CR, FS..US, SPACE, NEL (0x85) and NBSP (0xA0). *)
Definition isspace (c : ascii) : bool :=
  let n := nat_of_ascii c in
  (((9 <=? n) && (n <=? 13)) || ((28 <=? n) && (n <=? 32))
   || (n =? 133) || (n =? 160))%nat.

(** Truth value of a [str]: the empty string is false. *)
Definition truthy (s : string) : bool :=
  match s with
  | EmptyString => false
  | String _ _ => true
  end.

Fixpoint lstrip (s : string) : string :=
  match s with
  | EmptyString => EmptyString
  | String c s' => if isspace c then lstrip s' else s
  end.

Fixpoint rstrip (s : string) : string :=
  match s with
  | EmptyString => EmptyString
  | String c s' =>
      match rstrip s' with
      | EmptyString => if isspace c then EmptyString else String c EmptyString
      | r => String c r
      end
  end.

(** [s.strip()] *)
Definition strip (s : string) : string := rstrip (lstrip s).

(** A string of whitespace only (the empty string included). *)
Fixpoint all_space (s : string) : bool :=
  match s with
  | EmptyString => true
  | String c s' => isspace c && all_space s'
  end.

(** The line feed written [\n] in the source. *)
Definition nl : string := String (ascii_of_nat 10%nat) EmptyString.

(** First and last character, when there is one. *)
Definition first_char (s : string) : option ascii :=
  match s with
  | EmptyString => None
  | String c _ => Some c
  end.

Fixpoint last_char (s : string) : option ascii :=
  match s with
  | EmptyString => None
  | String c EmptyString => Some c
  | String _ s' => last_char s'
  end.

(** [s.startswith(p)] *)
Fixpoint startswith (p s : string) : bool :=
  match p with
  | EmptyString => true
  | String a p' =>
      match s with
      | EmptyString => false
      | String b s' => Ascii.eqb a b && startswith p' s'
      end
  end.

End PyStr.
Import PyStr.

(** ** Exceptions

    An [exception] is an instance of (a subclass of) Python's [Exception],
    the class every handler of the source names.  The handlers only look at
    whether it is an [IndexError] and at [str(e)]. *)

Inductive exception_class : Type :=
| IndexError
| RuntimeError
| OtherError (name : string).

Record exception : Type := mkException {
  exc_class : exception_class;
  str_e : string              (* what [str(e)] returns *)
}.

Definition is_IndexError (e : exception) : bool :=
  match exc_class e with
  | IndexError => true
  | _ => false
  end.

(** ** The outside world *)

(** Argument of [embedding_model.encode]: the source passes a list of texts
    once and a single text once. *)
Inductive encode_arg : Type :=
| EncList (texts : list string)
| EncStr (text : string).

Inductive event : Type :=
| EvFitzOpen (pdf_path : string)
| EvGetText (page_number : nat)
| EvDocClose (pdf_path : string)
| EvEncode (arg : encode_arg)
| EvCosSim
| EvQaPipeline (prompt : string) (max_new_tokens : Z)
| EvAgentRun (task : string)
| EvPrint (line : string)
| EvRaised (e : exception).

Record world : Type := mkWorld {
  trace : list event;          (* outside calls, oldest first *)
  open_docs : list string      (* paths of the document handles still open *)
}.

Definition initial_world : world := mkWorld [] [].

(** ** Computations: state and exceptions *)

Definition M (A : Type) : Type := world -> (exception + A) * world.

Definition ret {A} (a : A) : M A := fun w => (inr a, w).

Definition bind {A B} (m : M A) (f : A -> M B) : M B :=
  fun w =>
    match m w with
    | (inl e, w') => (inl e, w')
    | (inr a, w') => f a w'
    end.

Definition raise {A} (e : exception) : M A := fun w => (inl e, w).

(** [try: m  except Exception as e: h e] *)
Definition try_except {A} (m : M A) (h : exception -> M A) : M A :=
  fun w =>
    match m w with
    | (inl e, w') => h e w'
    | (inr a, w') => (inr a, w')
    end.

Definition emit (ev : event) : M unit :=
  fun w => (inr tt, mkWorld (trace w ++ [ev]) (open_docs w)).

(** Outcome of an outside call: a fault is recorded in the trace and
    raised. *)
Definition outcome {A} (r : exception + A) : M A :=
  match r with
  | inl e => bind (emit (EvRaised e)) (fun _ => raise e)
  | inr a => ret a
  end.

Definition print (line : string) : M unit := emit (EvPrint line).

Declare Scope py_scope.
Delimit Scope py_scope with py.
Notation "x <- m ;; k" := (bind m (fun x => k))
  (at level 61, m at next level, right associativity) : py_scope.
Notation "m ;; k" := (bind m (fun _ => k))
  (at level 61, right associativity) : py_scope.
Local Open Scope py_scope.

(** [l[i]] for a list and an index [i >= 0]. *)
Definition getitem {A} (l : list A) (i : nat) : M A :=
  match nth_error l i with
  | Some a => ret a
  | None => raise (mkException IndexError "list index out of range")
  end.

Fixpoint remove_first (p : string) (l : list string) : list string :=
  match l with
  | [] => []
  | q :: l' => if String.eqb p q then l' else q :: remove_first p l'
  end.

(** One result of the text-generation pipeline. *)
Record generation : Type := mkGeneration { generated_text : string }.

Section Pipeline.

(** Embedding vectors and similarity scores are whatever the models
    produce; scores are compared, nothing else. *)
Variable vector : Type.
Variable score : Type.
(** [score_leb a b]: [a] is not greater than [b] in the order [argmax]
    uses. *)
Variable score_leb : score -> score -> bool.

Definition score_ltb (a b : score) : bool := negb (score_leb b a).

(** The collaborators of the pipeline.
    - [fitz_open p]: [fitz.open(p)] raises, or gives a document; iterating
      it gives, page by page, what [page.get_text()] raises or returns.
    - [embedding_model.encode] raises ([encode_fault]) or returns one
      vector per text, in the order of the texts ([embed]).
    - [util.pytorch_cos_sim(a, b)] raises ([cos_sim_fault]) or returns the
      matrix of the similarities [cos a_i b_j].
    - [qa_pipeline(prompt, max_new_tokens=n)] raises or returns a list of
      generations. *)
Record services : Type := mkServices {
  fitz_open : string -> exception + list (exception + string);
  embed : string -> vector;
  encode_fault : encode_arg -> option exception;
  cos : vector -> vector -> score;
  cos_sim_fault : vector -> list vector -> option exception;
  qa_pipeline : string -> Z -> exception + list generation
}.

Variable svc : services.

(** *** Calls to the collaborators *)

Record document : Type := mkDocument {
  doc_path : string;
  doc_pages : list (exception + string)
}.

Definition fitz_open_call (pdf_path : string) : M document :=
  emit (EvFitzOpen pdf_path) ;;
  pages <- outcome (fitz_open svc pdf_path) ;;
  fun w => (inr (mkDocument pdf_path pages),
            mkWorld (trace w) (pdf_path :: open_docs w)).

Definition get_text (page : exception + string) (page_number : nat)
  : M string :=
  emit (EvGetText page_number) ;; outcome page.

Definition doc_close (doc : document) : M unit :=
  fun w => (inr tt,
            mkWorld (trace w ++ [EvDocClose (doc_path doc)])
                    (remove_first (doc_path doc) (open_docs w))).

Definition fault_or {A} (f : option exception) (a : A) : exception + A :=
  match f with
  | Some e => inl e
  | None => inr a
  end.

Definition encode_list (texts : list string) : M (list vector) :=
  emit (EvEncode (EncList texts)) ;;
  outcome (fault_or (encode_fault svc (EncList texts))
                    (map (embed svc) texts)).

Definition encode_str (text : string) : M vector :=
  emit (EvEncode (EncStr text)) ;;
  outcome (fault_or (encode_fault svc (EncStr text)) (embed svc text)).

(** [util.pytorch_cos_sim(a, b)] with a single vector [a]: a matrix of one
    row. *)
Definition pytorch_cos_sim (a : vector) (b : list vector)
  : M (list (list score)) :=
  emit EvCosSim ;;
  outcome (fault_or (cos_sim_fault svc a b) [map (cos svc a) b]).

(** [scores.argmax()] on a tensor of one dimension.  The method belongs to
    the tensor library, not to the repository; it is written out here after
    its documented contract: a scan that keeps the earliest entry no later
    entry exceeds, so that of several maximal entries the first is returned;
    on an empty tensor it raises. *)
Fixpoint argmax_from (best_idx : nat) (best : score) (i : nat)
         (l : list score) : nat :=
  match l with
  | [] => best_idx
  | x :: l' =>
      if score_ltb best x then argmax_from i x (S i) l'
      else argmax_from best_idx best (S i) l'
  end.

Definition argmax (scores : list score) : M nat :=
  match scores with
  | [] => raise (mkException RuntimeError
                   "argmax(): Expected reduction dim to be specified for input.numel() == 0.")
  | x :: l => ret (argmax_from 0 x 1 l)
  end.

Definition qa_pipeline_call (prompt : string) (max_new_tokens : Z)
  : M (list generation) :=
  emit (EvQaPipeline prompt max_new_tokens) ;;
  outcome (qa_pipeline svc prompt max_new_tokens).

(** *** [document_qna_tool] (app.py) *)

(** The loop of lines 99-102. *)
Fixpoint extract_pages (pages : list (exception + string)) (page_number : nat)
         (text_chunks : list string) : M (list string) :=
  match pages with
  | [] => ret text_chunks
  | page :: rest =>
      text <- get_text page page_number ;;
      if truthy (strip text)
      then extract_pages rest (S page_number) (text_chunks ++ [text])
      else extract_pages rest (S page_number) text_chunks
  end.

(** Step 1, lines 97-103. *)
Definition extract_text (pdf_path : string) : M (list string) :=
  doc <- fitz_open_call pdf_path ;;
  text_chunks <- extract_pages (doc_pages doc) 0 [] ;;
  doc_close doc ;;
  ret text_chunks.

(** Lines 109-111: one score per chunk. *)
Definition similarity_scores (text_chunks : list string) (question : string)
  : M (list score) :=
  embeddings <- encode_list text_chunks ;;
  question_embedding <- encode_str question ;;
  sim <- pytorch_cos_sim question_embedding embeddings ;;
  getitem sim 0.

(** Step 2, lines 109-113: the index of the best match and its text. *)
Definition semantic_search (text_chunks : list string) (question : string)
  : M (nat * string) :=
  scores <- similarity_scores text_chunks question ;;
  best_match_idx <- argmax scores ;;
  best_context <- getitem text_chunks best_match_idx ;;
  ret (best_match_idx, best_context).

Definition make_prompt (best_context question : string) : string :=
  "Context: " ++ best_context ++ nl ++ "Question: " ++ question.

(** Step 3, lines 116-118. *)
Definition answer_question (best_context question : string) : M string :=
  let prompt := make_prompt best_context question in
  results <- qa_pipeline_call prompt 100 ;;
  first <- getitem results 0 ;;
  let answer := generated_text first in
  ret ("Answer: " ++ strip answer).

Definition document_qna_body (pdf_path question : string) : M string :=
  text_chunks <- extract_text pdf_path ;;
  match text_chunks with
  | [] => ret "No text found in the PDF."
  | _ :: _ =>
      found <- semantic_search text_chunks question ;;
      answer_question (snd found) question
  end.

Definition document_qna_handler (e : exception) : M string :=
  ret ("Error processing document QnA: " ++ str_e e).

Definition document_qna_tool (pdf_path question : string) : M string :=
  try_except (document_qna_body pdf_path question) document_qna_handler.

End Pipeline.

Arguments score_ltb {score} score_leb a b.
Arguments fitz_open_call {vector score} svc pdf_path.
Arguments encode_list {vector score} svc texts.
Arguments encode_str {vector score} svc text.
Arguments pytorch_cos_sim {vector score} svc a b.
Arguments argmax_from {score} score_leb best_idx best i l.
Arguments argmax {score} score_leb scores.
Arguments qa_pipeline_call {vector score} svc prompt max_new_tokens.
Arguments extract_text {vector score} svc pdf_path.
Arguments similarity_scores {vector score} svc text_chunks question.
Arguments semantic_search {vector score} score_leb svc text_chunks question.
Arguments answer_question {vector score} svc best_context question.
Arguments document_qna_body {vector score} score_leb svc pdf_path question.
Arguments document_qna_tool {vector score} score_leb svc pdf_path question.
Arguments mkServices {vector score} _ _ _ _ _ _.
Arguments fitz_open {vector score} _ _.
Arguments embed {vector score} _ _.
Arguments encode_fault {vector score} _ _.
Arguments cos {vector score} _ _ _.
Arguments cos_sim_fault {vector score} _ _ _.
Arguments qa_pipeline {vector score} _ _ _.

(** ** The dispatch layer (Gradio_UI.py) *)

(** What a tool or [agent.run] hands back is any Python object;
    [process_input] passes it on as it is.  Only whether it is a [str]
    matters here. *)
Inductive pyvalue : Type :=
| PyStr (s : string)
| PyObject (repr : string).     (* an object that is not a [str] *)

Module GradioUI.

(** The uploaded file as Gradio hands it over: [pdf_file.name] is its
    path. *)
Record File : Type := mkFile { name : string }.

(** A tool: its registered name, and what calling it with two positional
    strings does. *)
Record tool : Type := mkTool {
  tool_name : string;
  call : string -> string -> M pyvalue
}.

(** [agent.tools] is whatever the agent keeps: a list, or a dict keyed by
    tool name. *)
Inductive tool_container : Type :=
| ToolList (items : list tool)
| ToolDict (entries : list (string * tool)).

(** The agent as [process_input] uses it: [agent.tools] and
    [agent.run]. *)
Record Agent : Type := mkAgent {
  tools : tool_container;
  run : string -> M pyvalue
}.

(** [tools[i]] with an integer [i >= 0].  A dict keyed by names has no
    integer key, so the lookup raises [KeyError(i)]. *)
Definition subscript (c : tool_container) (i : nat) : M tool :=
  match c with
  | ToolList items => getitem items i
  | ToolDict _ =>
      raise (mkException (OtherError "KeyError")
                         (NilZero.string_of_uint (Nat.to_uint i)))
  end.

Definition agent_run (agent : Agent) (task : string) : M pyvalue :=
  emit (EvAgentRun task) ;; run agent task.

(** [query and query.strip()] *)
Definition has_text (query : string) : bool :=
  truthy query && truthy (strip query).

Definition tool_index : nat := 4.

Definition tool_not_found : string :=
  "Error: Document Q&A tool not found at the expected index (4). Check agent tool setup in app.py.".

(** Lines 23-56: the branch taken with a file and a question. *)
Definition ask_document (agent : Agent) (query : string) (pdf_file : File)
  : M pyvalue :=
  print ("PDF file uploaded: " ++ name pdf_file) ;;
  print ("Query (assumed question for PDF): " ++ query) ;;
  try_except
    (print "Detected PDF upload and query. Calling document_qna_tool..." ;;
     document_qna <- subscript (tools agent) tool_index ;;
     response <- call document_qna (name pdf_file) query ;;
     print "Document Q&A tool finished." ;;
     ret response)
    (fun e =>
       if is_IndexError e then ret (PyStr tool_not_found)
       else
         print ("Error during Document Q&A tool execution: " ++ str_e e) ;;
         ret (PyStr ("An error occurred during Document Q&A: " ++ str_e e))).

(** Lines 60-68: the branch taken with a request and no usable file. *)
Definition ask_agent (agent : Agent) (query : string) : M pyvalue :=
  print ("No PDF file or query is for general task. Processing with agent.run(): "
         ++ query) ;;
  try_except
    (response <- agent_run agent query ;;
     print "Agent.run finished for general query." ;;
     ret response)
    (fun e =>
       print ("Error during agent.run: " ++ str_e e) ;;
       ret (PyStr ("An error occurred while processing your request: "
                   ++ str_e e))).

(** [process_input(self, query, pdf_file=None)]: the [if]/[elif] chain of
    lines 22, 59, 71 and 81. *)
Definition process_input (agent : Agent) (query : string)
           (pdf_file : option File) : M pyvalue :=
  match pdf_file, has_text query with
  | Some f, true => ask_document agent query f
  | _, true => ask_agent agent query
  | Some _, false =>
      ret (PyStr "Please enter a question in the textbox to ask about the uploaded PDF.")
  | None, false =>
      ret (PyStr "Please enter a request or upload a document for analysis.")
  end.

End GradioUI.

(** ** The agent of app.py *)

Section App.

Variables vector score : Type.
Variable score_leb : score -> score -> bool.
Variable svc : services vector score.

(** The other tools of the list, and the agent's own loop, are taken as
    they come. *)
Variables get_current_time_in_timezone get_current_weather
          image_generation_tool search_tool final_answer : GradioUI.tool.
Variable agent_loop : string -> M pyvalue.

(** The object the [@tool] decorator makes of [document_qna_tool]: it is
    registered under the name of the function and calling it runs the
    function, whose result is a [str]. *)
Definition document_qna_tool_object : GradioUI.tool :=
  GradioUI.mkTool "document_qna_tool"
    (fun pdf_path question =>
       answer <- document_qna_tool score_leb svc pdf_path question ;;
       ret (PyStr answer)).

(** [CodeAgent(model=..., tools=[...], ...)]: the agent keeps the tools in
    a dict keyed by their names, [{tool.name: tool for tool in tools}]. *)
Definition CodeAgent (tools : list GradioUI.tool) : GradioUI.Agent :=
  GradioUI.mkAgent
    (GradioUI.ToolDict (map (fun t => (GradioUI.tool_name t, t)) tools))
    agent_loop.

(** The list of lines 142-149. *)
Definition registered_tools : list GradioUI.tool :=
  [ get_current_time_in_timezone;
    get_current_weather;
    image_generation_tool;
    search_tool;
    document_qna_tool_object;
    final_answer ].

Definition agent : GradioUI.Agent := CodeAgent registered_tools.

End App.

Arguments document_qna_tool_object {vector score} score_leb svc.
Arguments registered_tools {vector score} score_leb svc _ _ _ _ _.
Arguments agent {vector score} score_leb svc _ _ _ _ _ agent_loop.

(** ** Vocabulary of the statements *)

(** A page is kept when its text, stripped, is not empty (line 101). *)
Definition kept (text : string) : bool := truthy (strip text).

(** Similarity of a chunk to the question, as the services compute it. *)
Definition similarity {vector score} (svc : services vector score)
           (question chunk : string) : score :=
  cos svc (embed svc question) (embed svc chunk).

(** Neither encoder call nor the similarity call raises. *)
Definition retrieval_ok {vector score} (svc : services vector score)
           (text_chunks : list string) (question : string) : Prop :=
  encode_fault svc (EncList text_chunks) = None /\
  encode_fault svc (EncStr question) = None /\
  cos_sim_fault svc (embed svc question) (map (embed svc) text_chunks) = None.

(** [first_max leb l i v]: [v] is the entry of [l] at [i], no entry is
    greater, and every earlier entry is smaller. *)
Definition first_max {score} (score_leb : score -> score -> bool)
           (l : list score) (i : nat) (v : score) : Prop :=
  nth_error l i = Some v /\
  forall j x, nth_error l j = Some x ->
              score_leb x v = true /\
              (j < i -> score_ltb score_leb x v = true).

(** Calls to the embedding model and to the generation model. *)
Definition calls_model (ev : event) : bool :=
  match ev with
  | EvEncode _ | EvQaPipeline _ _ => true
  | _ => false
  end.

(** The world after some more events. *)
Definition logged (w : world) (evs : list event) : world :=
  mkWorld (trace w ++ evs) (open_docs w).

Definition printed (w : world) (lines : list string) : world :=
  logged w (map EvPrint lines).

(** The three lines printed before the tool is looked up. *)
Definition announced (w : world) (query : string) (pdf_file : GradioUI.File)
  : world :=
  printed w
    [("PDF file uploaded: " ++ GradioUI.name pdf_file);
     ("Query (assumed question for PDF): " ++ query);
     "Detected PDF upload and query. Calling document_qna_tool..."].


(** An exception recorded in the trace is the one the computation ends
    with; a computation that returns has recorded none. *)
Definition disciplined {A} (m : M A) : Prop :=
  forall w, exists new,
    trace (snd (m w)) = (trace w ++ new)%list /\
    match fst (m w) with
    | inl e => forall e', In (EvRaised e') new -> e' = e
    | inr _ => forall e', ~ In (EvRaised e') new
    end.

(** A computation that leaves the set of open document handles as it
    found it. *)
Definition keeps_handles {A} (m : M A) : Prop :=
  forall w, open_docs (snd (m w)) = open_docs w.

(** ** A small concrete world, used to run the definitions *)

Module Demo.

Definition paris : string := "Paris is the capital of France.".
Definition berlin : string := "Berlin is the capital of Germany.".
Definition question : string := "What is the capital of Germany?".

Definition boom : exception := mkException (OtherError "ValueError") "boom".

(** Page texts of "two.pdf" and of "blank.pdf". *)
Definition two_pages : list string := [paris; "   "; berlin].
Definition blank_pages : list string := [""; "  "].

(** Vectors are text lengths, similarity is their product. *)
Definition demo_services : services Z Z :=
  mkServices
    (fun p =>
       if String.eqb p "two.pdf" then inr (map inr two_pages)
       else if String.eqb p "blank.pdf" then inr (map inr blank_pages)
       else if String.eqb p "broken.pdf" then inr [inr paris; inl boom]
       else if String.eqb p "one.pdf" then inr [inr berlin]
       else inl (mkException (OtherError "FileNotFoundError") "no such file"))
    (fun t => Z.of_nat (String.length t))
    (fun _ => None)
    (fun a b => (a * b)%Z)
    (fun _ _ => None)
    (fun prompt _ => inr [mkGeneration "  Berlin "]).

Definition demo_tool : GradioUI.tool :=
  document_qna_tool_object Z.leb demo_services.

Definition noop_tool : GradioUI.tool :=
  GradioUI.mkTool "noop" (fun _ _ => ret (PyStr "")).

Definition demo_loop (task : string) : M pyvalue :=
  ret (PyStr ("done: " ++ task)).

(** The agent as app.py builds it. *)
Definition demo_agent : GradioUI.Agent :=
  agent Z.leb demo_services noop_tool noop_tool noop_tool noop_tool noop_tool
        demo_loop.

(** An agent that keeps the same tools as a list. *)
Definition list_agent : GradioUI.Agent :=
  GradioUI.mkAgent
    (GradioUI.ToolList
       (registered_tools Z.leb demo_services noop_tool noop_tool noop_tool
                         noop_tool noop_tool))
    demo_loop.

(** An agent whose final answer is the number 42. *)
Definition number_agent : GradioUI.Agent :=
  GradioUI.mkAgent (GradioUI.ToolDict []) (fun _ => ret (PyObject "42")).

(** A document whose second and third pages are equally similar to any
    question (same length), and more so than the first. *)
Definition rome : string := "Rome is the capital of Italy.".
Definition vienna : string := "Vienna is the capital of Austria.".
Definition tied_pages : list string := [rome; berlin; vienna].

Definition tied_services : services Z Z :=
  mkServices
    (fun p => if String.eqb p "tied.pdf" then inr (map inr tied_pages)
              else inl (mkException (OtherError "FileNotFoundError")
                                    "no such file"))
    (fun t => Z.of_nat (String.length t))
    (fun _ => None)
    (fun a b => (a * b)%Z)
    (fun _ _ => None)
    (fun prompt _ => inr [mkGeneration "  Berlin "]).

End Demo.

(** ** The weather and time tools (app.py) *)

(** The two tools do not touch the world of the pipeline: each is one call
    to a collaborator followed by formatting, written in the error monad
    [exception + _]. *)

Declare Scope result_scope.
Delimit Scope result_scope with result.

Module Tools.

Definition result (A : Type) : Type := (exception + A)%type.

Definition and_then {A B} (r : result A) (f : A -> result B) : result B :=
  match r with
  | inl e => inl e
  | inr a => f a
  end.

(** [try: r  except Exception as e: h e] *)
Definition rescue {A} (r : result A) (h : exception -> result A) : result A :=
  match r with
  | inl e => h e
  | inr a => inr a
  end.

Notation "x <- m ;; k" := (and_then m (fun x => k))
  (at level 61, m at next level, right associativity) : result_scope.
Local Open Scope result_scope.

(** *** JSON values as [response.json()] returns them *)

Section Json.

(** Numbers are left abstract: the tool only formats them.  An object is
    the dict Python built from it, as an association list read front to
    back. *)
Variable number : Type.

#[warnings="-register-all"] Inductive json : Type :=
| JNull
| JBool (b : bool)
| JNumber (n : number)
| JString (s : string)
| JArray (items : list json)
| JObject (members : list (string * json)).

(** [str()] of a value that is not a [str], and the text of the [TypeError]
    raised when a value cannot be subscripted with the given kind of key,
    are Python's business. *)
Variable str_other : json -> string.
Variable type_error_text : json -> string.

(** A replacement field [{v}] of an f-string. *)
Definition format (v : json) : string :=
  match v with
  | JString s => s
  | other => str_other other
  end.

Fixpoint lookup (key : string) (members : list (string * json))
  : option json :=
  match members with
  | [] => None
  | (k, v) :: rest => if String.eqb key k then Some v else lookup key rest
  end.

(** [repr(key)] for the keys of the source, which need no escaping. *)
Definition repr_key (key : string) : string := "'" ++ key ++ "'".

Definition KeyError (text : string) : exception :=
  mkException (OtherError "KeyError") text.

Definition TypeError (text : string) : exception :=
  mkException (OtherError "TypeError") text.

(** [v[key]] with a string key. *)
Definition subscript (v : json) (key : string) : result json :=
  match v with
  | JObject members =>
      match lookup key members with
      | Some x => inr x
      | None => inl (KeyError (repr_key key))
      end
  | other => inl (TypeError (type_error_text other))
  end.

(** [v[i]] with an index [i >= 0]. *)
Definition subscript_int (v : json) (i : nat) : result json :=
  match v with
  | JArray items =>
      match nth_error items i with
      | Some x => inr x
      | None => inl (mkException IndexError "list index out of range")
      end
  | JString s =>
      match String.get i s with
      | Some c => inr (JString (String c EmptyString))
      | None => inl (mkException IndexError "string index out of range")
      end
  | JObject _ =>
      inl (KeyError (NilZero.string_of_uint (Nat.to_uint i)))
  | other => inl (TypeError (type_error_text other))
  end.

(** *** [get_current_weather] *)

Record response : Type := mkResponse {
  status_code : Z;
  json_body : result json          (* what [response.json()] does *)
}.

(** [requests.get(url, params=params)]; a parameter whose value is [None]
    is written [None]. *)
Variable requests_get :
  string -> list (string * option string) -> result response.

(** [os.getenv("Weather_Token")] *)
Variable API_KEY : option string.

(** The degree sign of line 49. *)
Definition degree : string := String (ascii_of_nat 176%nat) EmptyString.

Definition weather_url : string :=
  "https://api.openweathermap.org/data/2.5/weather".

Definition weather_params (place : string) : list (string * option string) :=
  [("q", Some place); ("appid", API_KEY); ("units", Some "metric")].

Definition weather_report (place : string)
           (weather_desc temperature humidity wind_speed : json) : string :=
  "Weather in " ++ place ++ ":" ++ nl
  ++ "- Condition: " ++ format weather_desc ++ nl
  ++ "- Temperature: " ++ format temperature ++ degree ++ "C" ++ nl
  ++ "- Humidity: " ++ format humidity ++ "%" ++ nl
  ++ "- Wind Speed: " ++ format wind_speed ++ " m/s".

(** Lines 37-54, the body of the [try]. *)
Definition get_current_weather_body (place : string) : result string :=
  let api_key := API_KEY in
  let url := weather_url in
  let params := [("q", Some place); ("appid", api_key); ("units", Some "metric")] in
  response <- requests_get url params ;;
  data <- json_body response ;;
  if Z.eqb (status_code response) 200 then
    weather <- subscript data "weather" ;;
    first <- subscript_int weather 0 ;;
    weather_desc <- subscript first "description" ;;
    main <- subscript data "main" ;;
    temperature <- subscript main "temp" ;;
    main' <- subscript data "main" ;;
    humidity <- subscript main' "humidity" ;;
    wind <- subscript data "wind" ;;
    wind_speed <- subscript wind "speed" ;;
    inr (weather_report place weather_desc temperature humidity wind_speed)
  else
    message <- subscript data "message" ;;
    inr ("Error: " ++ format message).

Definition get_current_weather (place : string) : result string :=
  rescue (get_current_weather_body place)
         (fun e => inr ("Error fetching weather data for '" ++ place ++ "': "
                        ++ str_e e)).

End Json.

(** *** [get_current_time_in_timezone] *)

Section Clock.

(** Time zones and instants are pytz's and datetime's. *)
Variables tzinfo datetime : Type.
(** [pytz.timezone(name)] *)
Variable pytz_timezone : string -> result tzinfo.
(** [datetime.datetime.now(tz)], the clock at the moment of the call. *)
Variable now : tzinfo -> datetime.
(** [d.strftime(fmt)] *)
Variable strftime : datetime -> string -> string.

Definition get_current_time_in_timezone (timezone : string) : result string :=
  rescue
    (tz <- pytz_timezone timezone ;;
     let local_time := strftime (now tz) "%Y-%m-%d %H:%M:%S" in
     inr ("The current local time in " ++ timezone ++ " is: " ++ local_time))
    (fun e => inr ("Error fetching time for timezone '" ++ timezone ++ "': "
                   ++ str_e e)).

End Clock.

Arguments JNull {number}.
Arguments JBool {number} b.
Arguments JNumber {number} n.
Arguments JString {number} s.
Arguments JArray {number} items.
Arguments JObject {number} members.
Arguments format {number} str_other v.
Arguments lookup {number} key members.
Arguments subscript {number} type_error_text v key.
Arguments subscript_int {number} type_error_text v i.
Arguments mkResponse {number} status_code json_body.
Arguments status_code {number} r.
Arguments json_body {number} r.
Arguments weather_report {number} str_other place weather_desc temperature
  humidity wind_speed.
Arguments get_current_weather_body {number} str_other type_error_text
  requests_get API_KEY place.
Arguments get_current_weather {number} str_other type_error_text
  requests_get API_KEY place.
Arguments get_current_time_in_timezone {tzinfo datetime} pytz_timezone now
  strftime timezone.

(** The fields [get_current_weather] reads from a well-formed answer. *)
Definition weather_fields {number} (data : json number)
           (weather_desc temperature humidity wind_speed : json number)
  : Prop :=
  exists weather rest main wind,
    match data with
    | JObject members =>
        lookup "weather" members = Some (JArray (weather :: rest)) /\
        lookup "main" members = Some main /\
        lookup "wind" members = Some wind
    | _ => False
    end /\
    match weather with
    | JObject members => lookup "description" members = Some weather_desc
    | _ => False
    end /\
    match main with
    | JObject members =>
        lookup "temp" members = Some temperature /\
        lookup "humidity" members = Some humidity
    | _ => False
    end /\
    match wind with
    | JObject members => lookup "speed" members = Some wind_speed
    | _ => False
    end.

End Tools.

(** ** More vocabulary *)

(** Every event the computation adds to the trace satisfies [P]. *)
Definition emits_only (P : event -> Prop) {A} (m : M A) : Prop :=
  forall w, exists new,
    trace (snd (m w)) = (trace w ++ new)%list /\ Forall P new.

(** The events of the document pipeline: no print, no agent run. *)
Definition pipeline_event (ev : event) : Prop :=
  match ev with
  | EvAgentRun _ | EvPrint _ => False
  | _ => True
  end.

Definition no_fault (evs : list event) : Prop :=
  forall e, ~ In (EvRaised e) evs.

(** A computation in which a recorded fault is the last thing that
    happens: if it ends with [e] after a collaborator raised, the trace ends
    with that fault and holds no other. *)
Definition fault_is_last {A} (m : M A) : Prop :=
  forall w, exists new,
    trace (snd (m w)) = (trace w ++ new)%list /\
    match fst (m w) with
    | inl e => no_fault new \/
               exists before, new = (before ++ [EvRaised e])%list /\
                              no_fault before
    | inr _ => no_fault new
    end.

(** The three shapes of what [document_qna_tool] returns. *)
Inductive tool_output : string -> Prop :=
| OutNoText : tool_output "No text found in the PDF."
| OutAnswer (g : generation) :
    tool_output ("Answer: " ++ strip (generated_text g))
| OutError (e : exception) :
    tool_output ("Error processing document QnA: " ++ str_e e).

(** ** Concrete collaborators for the two tools *)

Module DemoTools.

Definition str_other (v : Tools.json Z) : string :=
  match v with
  | Tools.JNumber n =>
      if Z.eqb n 21 then "21.5"
      else if Z.eqb n 60 then "60"
      else if Z.eqb n 3 then "3.6"
      else "0"
  | _ => "None"
  end.

Definition type_error_text (v : Tools.json Z) : string :=
  "object is not subscriptable".

Definition london : Tools.json Z :=
  Tools.JObject
    [("weather", Tools.JArray
                   [Tools.JObject [("id", Tools.JNumber 800%Z);
                                   ("description", Tools.JString "clear sky")]]);
     ("main", Tools.JObject [("temp", Tools.JNumber 21%Z);
                             ("humidity", Tools.JNumber 60%Z)]);
     ("wind", Tools.JObject [("speed", Tools.JNumber 3%Z)]);
     ("cod", Tools.JNumber 200%Z)].

Definition not_found : Tools.json Z :=
  Tools.JObject [("cod", Tools.JString "404");
                 ("message", Tools.JString "city not found")].

Definition no_weather : Tools.json Z :=
  Tools.JObject
    [("weather", Tools.JArray []);
     ("main", Tools.JObject [("temp", Tools.JNumber 21%Z);
                             ("humidity", Tools.JNumber 60%Z)]);
     ("wind", Tools.JObject [("speed", Tools.JNumber 3%Z)])].

Definition requests_get (url : string) (params : list (string * option string))
  : Tools.result (Tools.response Z) :=
  match params with
  | ("q", Some place) :: _ =>
      if String.eqb place "London" then inr (Tools.mkResponse 200%Z (inr london))
      else if String.eqb place "Nowhere"
           then inr (Tools.mkResponse 404%Z (inr not_found))
      else if String.eqb place "Empty"
           then inr (Tools.mkResponse 200%Z (inr no_weather))
      else if String.eqb place "Gateway"
           then inr (Tools.mkResponse 502%Z
                       (inl (mkException (OtherError "JSONDecodeError")
                                         "Expecting value: line 1 column 1 (char 0)")))
      else inl (mkException (OtherError "ConnectionError") "connection refused")
  | _ => inl (mkException (OtherError "ConnectionError") "connection refused")
  end.

(** The services of [Demo] with a generation model that returns no
    generation. *)
Definition silent_services : services Z Z :=
  mkServices (fitz_open Demo.demo_services) (embed Demo.demo_services)
             (encode_fault Demo.demo_services) (cos Demo.demo_services)
             (cos_sim_fault Demo.demo_services)
             (fun _ _ => inr []).

Definition pytz_timezone (name : string) : Tools.result Z :=
  if String.eqb name "Europe/Berlin" then inr 1%Z
  else inl (mkException (OtherError "UnknownTimeZoneError")
                        ("'" ++ name ++ "'")).

End DemoTools.

(** * Properties *)

Local Open Scope list_scope.

(** ** The definitions at work *)

Example strip_both_ends : strip "  Berlin " = "Berlin"%string.
Proof. reflexivity. Qed.

Example strip_keeps_inner_space :
  strip (nl ++ " a  b " ++ nl)%string = "a  b"%string.
Proof. reflexivity. Qed.

Example strip_blank : strip ("   " ++ nl)%string = ""%string.
Proof. reflexivity. Qed.

Example argmax_first_of_ties :
  argmax Z.leb [3; 7; 7; 1]%Z initial_world = (inr 1, initial_world).
Proof. reflexivity. Qed.

(** The end-to-end scenario: two pages with text and a blank one between
    them; the second chunk is selected and goes into the prompt. *)
Example two_pages_end_to_end :
  document_qna_tool Z.leb Demo.demo_services "two.pdf" Demo.question
                    initial_world
  = (inr "Answer: Berlin"%string,
     mkWorld
       [EvFitzOpen "two.pdf"; EvGetText 0; EvGetText 1; EvGetText 2;
        EvDocClose "two.pdf";
        EvEncode (EncList [Demo.paris; Demo.berlin]);
        EvEncode (EncStr Demo.question);
        EvCosSim;
        EvQaPipeline
          ("Context: Berlin is the capital of Germany." ++ nl
           ++ "Question: What is the capital of Germany?")%string
          100]
       []).
Proof. reflexivity. Qed.

Example missing_file_is_reported :
  fst (document_qna_tool Z.leb Demo.demo_services "none.pdf" Demo.question
                         initial_world)
  = inr "Error processing document QnA: no such file"%string.
Proof. reflexivity. Qed.

Example file_without_question :
  GradioUI.process_input Demo.demo_agent "   "
                         (Some (GradioUI.mkFile "two.pdf")) initial_world
  = (inr (PyStr "Please enter a question in the textbox to ask about the uploaded PDF."),
     initial_world).
Proof. reflexivity. Qed.

Example request_without_file :
  fst (GradioUI.process_input Demo.demo_agent "hello" None initial_world)
  = inr (PyStr "done: hello").
Proof. reflexivity. Qed.

(** With the tools kept as a list the document tool sits at index 4 and
    answers. *)
Example list_agent_answers :
  fst (GradioUI.process_input Demo.list_agent Demo.question
                              (Some (GradioUI.mkFile "two.pdf"))
                              initial_world)
  = inr (PyStr "Answer: Berlin").
Proof. reflexivity. Qed.

Module PyStrFacts.

Lemma lstrip_first s c :
  first_char (lstrip s) = Some c -> isspace c = false.
Proof.
  induction s as [|a s IH]; simpl; [discriminate|].
  destruct (isspace a) eqn:Ha; [exact IH|].
  simpl. intros H. injection H as <-. exact Ha.
Qed.

Lemma rstrip_first s c :
  first_char (rstrip s) = Some c -> first_char s = Some c.
Proof.
  destruct s as [|a s]; simpl; [discriminate|].
  destruct (rstrip s); [destruct (isspace a)|]; simpl; congruence.
Qed.

Lemma rstrip_last s c :
  last_char (rstrip s) = Some c -> isspace c = false.
Proof.
  induction s as [|a s IH]; simpl; [discriminate|].
  destruct (rstrip s) as [|b r] eqn:Hr.
  - destruct (isspace a) eqn:Ha; simpl; [discriminate|].
    intros H. injection H as <-. exact Ha.
  - simpl. exact IH.
Qed.

Lemma strip_first s c :
  first_char (strip s) = Some c -> isspace c = false.
Proof.
  unfold strip. intros H. apply rstrip_first in H.
  now apply lstrip_first in H.
Qed.

Lemma strip_last s c :
  last_char (strip s) = Some c -> isspace c = false.
Proof. unfold strip. apply rstrip_last. Qed.

Lemma truthy_false s : truthy s = false <-> s = "".
Proof. destruct s; simpl; split; congruence. Qed.

Lemma truthy_true s : truthy s = true <-> s <> "".
Proof. destruct s; simpl; split; congruence. Qed.

Lemma strip_empty : strip "" = "".
Proof. reflexivity. Qed.

Lemma rstrip_empty_iff s : rstrip s = "" <-> all_space s = true.
Proof.
  induction s as [|c s IH]; simpl; [tauto|].
  rewrite andb_true_iff, <- IH.
  destruct (rstrip s); [destruct (isspace c)|]; split;
    solve [discriminate | intuition discriminate | intuition reflexivity].
Qed.

Lemma lstrip_all_space s : all_space s = true -> lstrip s = "".
Proof.
  induction s as [|c s IH]; simpl; [reflexivity|].
  rewrite andb_true_iff. intros [-> H]. now apply IH.
Qed.

Lemma all_space_lstrip s : all_space (lstrip s) = true -> all_space s = true.
Proof.
  induction s as [|c s IH]; simpl; [reflexivity|].
  destruct (isspace c) eqn:Hc; simpl; [exact IH|].
  rewrite Hc. discriminate.
Qed.

(** Stripping leaves nothing exactly when the string is whitespace only. *)
Lemma strip_empty_iff s : strip s = "" <-> all_space s = true.
Proof.
  unfold strip. rewrite rstrip_empty_iff. split.
  - apply all_space_lstrip.
  - intros H. now rewrite (lstrip_all_space s H).
Qed.

End PyStrFacts.
Import PyStrFacts.

(** ** [argmax] returns the first maximal entry *)

Section Argmax.

Variable score : Type.
Variable score_leb : score -> score -> bool.
Hypothesis score_leb_total :
  forall a b, score_leb a b = true \/ score_leb b a = true.
Hypothesis score_leb_trans :
  forall a b c, score_leb a b = true -> score_leb b c = true ->
                score_leb a c = true.

Local Abbreviation ltb := (score_ltb score_leb).
Local Abbreviation first_max := (first_max score_leb).

Lemma ltb_leb a b : ltb a b = true -> score_leb a b = true.
Proof.
  unfold score_ltb. intros H. apply negb_true_iff in H.
  destruct (score_leb_total a b); congruence.
Qed.

Lemma leb_ltb_trans a b c :
  score_leb a b = true -> ltb b c = true -> ltb a c = true.
Proof.
  unfold score_ltb. intros Hab Hbc.
  apply negb_true_iff in Hbc. apply negb_true_iff.
  destruct (score_leb c a) eqn:Hca; [|reflexivity].
  rewrite (score_leb_trans c a b Hca Hab) in Hbc. discriminate.
Qed.

Lemma first_max_snoc_keep pre i v x :
  first_max pre i v -> ltb v x = false ->
  first_max (pre ++ [x]) i v.
Proof.
  intros [Hi Hmax] Hx. split.
  - rewrite nth_error_app1; [exact Hi|].
    apply nth_error_Some. congruence.
  - intros j y Hj.
    destruct (Nat.lt_ge_cases j (length pre)) as [Hlt|Hge].
    + rewrite nth_error_app1 in Hj by exact Hlt. now apply Hmax.
    + rewrite nth_error_app2 in Hj by exact Hge.
      assert (Hi' : i < length pre) by (apply nth_error_Some; congruence).
      destruct (j - length pre) as [|k] eqn:Hk; simpl in Hj.
      * injection Hj as Hy. subst y. split; [|lia].
        unfold score_ltb in Hx. now apply negb_false_iff in Hx.
      * destruct k; discriminate.
Qed.

Lemma first_max_snoc_new pre i v x :
  first_max pre i v -> ltb v x = true ->
  first_max (pre ++ [x]) (length pre) x.
Proof.
  intros [Hi Hmax] Hx. split.
  - rewrite nth_error_app2 by lia. now rewrite Nat.sub_diag.
  - intros j y Hj.
    destruct (Nat.lt_ge_cases j (length pre)) as [Hlt|Hge].
    + rewrite nth_error_app1 in Hj by exact Hlt.
      destruct (Hmax j y Hj) as [Hle _].
      split; [|intros _]; [apply ltb_leb|]; now apply leb_ltb_trans with v.
    + rewrite nth_error_app2 in Hj by exact Hge.
      destruct (j - length pre) as [|k] eqn:Hk; simpl in Hj.
      * injection Hj as Hy. subst y. split; [|lia].
        destruct (score_leb_total x x); assumption.
      * destruct k; discriminate.
Qed.

Lemma argmax_from_first_max l :
  forall pre i v,
    first_max pre i v ->
    exists v', first_max (pre ++ l)
                         (argmax_from score_leb i v (length pre) l) v'.
Proof.
  induction l as [|x l IH]; intros pre i v H; simpl.
  - exists v. now rewrite app_nil_r.
  - assert (Hlen : length (pre ++ [x]) = S (length pre))
      by (rewrite length_app; simpl; lia).
    change (pre ++ x :: l) with (pre ++ [x] ++ l).
    rewrite app_assoc, <- Hlen.
    destruct (score_ltb score_leb v x) eqn:Hx.
    + apply IH. now apply first_max_snoc_new with i v.
    + apply IH. now apply first_max_snoc_keep.
Qed.

(** The first maximal entry is unique: its index is the least one whose
    entry no other entry exceeds. *)
Lemma first_max_least l i v k y :
  first_max l i v -> nth_error l k = Some y ->
  (forall j x, nth_error l j = Some x -> score_leb x y = true) ->
  i <= k.
Proof.
  intros [Hi Hmax] Hk Hy.
  destruct (Nat.le_gt_cases i k) as [Hle|Hgt]; [exact Hle|exfalso].
  destruct (Hmax k y Hk) as [_ Hlt]. specialize (Hlt Hgt).
  unfold score_ltb in Hlt. apply negb_true_iff in Hlt.
  now rewrite (Hy i v Hi) in Hlt.
Qed.

Lemma argmax_from_head x l :
  exists v, first_max (x :: l) (argmax_from score_leb 0 x 1 l) v.
Proof.
  apply (argmax_from_first_max l [x] 0 x). split; [reflexivity|].
  intros [|[|j]] y Hj; simpl in Hj; try discriminate.
  injection Hj as Hy. subst y. split; [|lia].
  destruct (score_leb_total x x); assumption.
Qed.

End Argmax.

(** ** Running the steps of the pipeline *)

Lemma logged_logged w evs evs' :
  logged (logged w evs) evs' = logged w (evs ++ evs').
Proof. unfold logged; simpl. now rewrite app_assoc. Qed.

Lemma extract_pages_texts texts :
  forall n acc w,
    extract_pages (map inr texts) n acc w
    = (inr (acc ++ filter kept texts),
       logged w (map EvGetText (seq n (length texts)))).
Proof.
  induction texts as [|t texts IH]; intros n acc w; simpl.
  - unfold ret, logged. simpl. rewrite !app_nil_r. now destruct w.
  - unfold bind, get_text, emit, outcome, ret at 1. simpl.
    fold (kept t). fold (logged w [EvGetText n]).
    destruct (kept t); rewrite IH, logged_logged; simpl;
      [now rewrite <- app_assoc | reflexivity].
Qed.

Section PipelineFacts.

Variables vector score : Type.
Variable score_leb : score -> score -> bool.
Variable svc : services vector score.

Lemma extract_text_ok pdf_path texts w :
  fitz_open svc pdf_path = inr (map inr texts) ->
  extract_text svc pdf_path w
  = (inr (filter kept texts),
     logged w (EvFitzOpen pdf_path
               :: map EvGetText (seq 0 (length texts))
               ++ [EvDocClose pdf_path])).
Proof.
  intros Hopen.
  unfold extract_text, fitz_open_call, bind, emit. simpl.
  rewrite Hopen. simpl. rewrite extract_pages_texts. simpl.
  rewrite String.eqb_refl. unfold ret, logged. simpl.
  now rewrite <- !app_assoc.
Qed.

Lemma similarity_scores_ok text_chunks question w :
  retrieval_ok svc text_chunks question ->
  similarity_scores svc text_chunks question w
  = (inr (map (similarity svc question) text_chunks),
     logged w [EvEncode (EncList text_chunks);
               EvEncode (EncStr question); EvCosSim]).
Proof.
  intros (Hlist & Hstr & Hcos).
  unfold similarity_scores, encode_list, encode_str, pytorch_cos_sim,
    bind, emit. simpl.
  rewrite Hlist. simpl. rewrite Hstr. simpl. rewrite Hcos. simpl.
  unfold ret, logged. simpl. rewrite map_map, <- !app_assoc. reflexivity.
Qed.

End PipelineFacts.

Section Selection.

Variables vector score : Type.
Variable score_leb : score -> score -> bool.
Variable svc : services vector score.
Hypothesis score_leb_total :
  forall a b, score_leb a b = true \/ score_leb b a = true.
Hypothesis score_leb_trans :
  forall a b c, score_leb a b = true -> score_leb b c = true ->
                score_leb a c = true.

Lemma semantic_search_ok text_chunks question :
  text_chunks <> [] ->
  retrieval_ok svc text_chunks question ->
  exists i best_context,
    (forall w,
        semantic_search score_leb svc text_chunks question w
        = (inr (i, best_context),
           logged w [EvEncode (EncList text_chunks);
                     EvEncode (EncStr question); EvCosSim])) /\
    nth_error text_chunks i = Some best_context /\
    first_max score_leb (map (similarity svc question) text_chunks) i
              (similarity svc question best_context).
Proof.
  intros Hne Hok.
  destruct text_chunks as [|c cs]; [congruence|].
  destruct (argmax_from_head score score_leb score_leb_total score_leb_trans
              (similarity svc question c)
              (map (similarity svc question) cs)) as [v Hv].
  change (similarity svc question c :: map (similarity svc question) cs)
    with (map (similarity svc question) (c :: cs)) in Hv.
  set (i := argmax_from score_leb 0 (similarity svc question c) 1
              (map (similarity svc question) cs)) in *.
  assert (Hi := proj1 Hv). rewrite nth_error_map in Hi.
  destruct (nth_error (c :: cs) i) as [best_context|] eqn:Hctx;
    [|discriminate].
  simpl in Hi. injection Hi as Hi. subst v.
  exists i, best_context. split; [|split; assumption].
  intros w. unfold semantic_search, bind.
  rewrite (similarity_scores_ok _ _ svc (c :: cs) question w Hok).
  simpl map. unfold argmax, ret at 1. fold i.
  unfold getitem. rewrite Hctx. reflexivity.
Qed.

(** From a document whose pages all yield text to the answering step. *)
Lemma document_qna_tool_steps pdf_path question texts w :
  fitz_open svc pdf_path = inr (map inr texts) ->
  filter kept texts <> [] ->
  retrieval_ok svc (filter kept texts) question ->
  exists i best_context w1 w2,
    extract_text svc pdf_path w = (inr (filter kept texts), w1) /\
    semantic_search score_leb svc (filter kept texts) question w1
    = (inr (i, best_context), w2) /\
    nth_error (filter kept texts) i = Some best_context /\
    first_max score_leb
              (map (similarity svc question) (filter kept texts)) i
              (similarity svc question best_context) /\
    document_qna_tool score_leb svc pdf_path question w
    = try_except (answer_question svc best_context question)
                 document_qna_handler w2.
Proof.
  intros Hopen Hne Hok.
  pose proof (extract_text_ok _ _ svc pdf_path texts w Hopen) as Hext.
  set (w1 := logged w _) in Hext.
  destruct (semantic_search_ok (filter kept texts) question Hne Hok)
    as (i & best_context & Hsearch & Hnth & Hmax).
  specialize (Hsearch w1). set (w2 := logged w1 _) in Hsearch.
  exists i, best_context, w1, w2. repeat (split; [assumption|]).
  unfold document_qna_tool, try_except, document_qna_body, bind.
  rewrite Hext.
  destruct (filter kept texts) as [|c cs] eqn:Hchunks; [congruence|].
  rewrite Hsearch. reflexivity.
Qed.

End Selection.

(** ** The pipeline: selection, blank documents, the answer *)

Section PipelineClaims.

Variables vector score : Type.
Variable score_leb : score -> score -> bool.
Variable svc : services vector score.
Hypothesis score_leb_total :
  forall a b, score_leb a b = true \/ score_leb b a = true.
Hypothesis score_leb_trans :
  forall a b c, score_leb a b = true -> score_leb b c = true ->
                score_leb a c = true.

Local Abbreviation chunks_of texts := (filter kept texts).
Local Abbreviation sim question := (similarity svc question).

(** C1. When the pages of the document yield text, at least one page is
    kept and the encoder and the similarity call do not raise,
    [document_qna_tool] goes on to answer from a chunk whose similarity to
    the question no other chunk exceeds; with a single kept page that
    chunk is the page's text, whatever the question. *)
Theorem selects_most_similar_chunk pdf_path question texts w :
  fitz_open svc pdf_path = inr (map inr texts) ->
  chunks_of texts <> [] ->
  retrieval_ok svc (chunks_of texts) question ->
  exists i best_context w2,
    nth_error (chunks_of texts) i = Some best_context /\
    (forall j c, nth_error (chunks_of texts) j = Some c ->
                 score_leb (sim question c) (sim question best_context)
                 = true) /\
    document_qna_tool score_leb svc pdf_path question w
    = try_except (answer_question svc best_context question)
                 document_qna_handler w2 /\
    (forall t, chunks_of texts = [t] -> best_context = t).
Proof.
  intros Hopen Hne Hok.
  destruct (document_qna_tool_steps _ _ score_leb svc score_leb_total
              score_leb_trans pdf_path question texts w Hopen Hne Hok)
    as (i & best_context & w1 & w2 & _ & _ & Hnth & Hmax & Hrun).
  exists i, best_context, w2. repeat split; try assumption.
  - intros j c Hj. apply (proj2 Hmax j).
    rewrite nth_error_map, Hj. reflexivity.
  - intros t Ht. rewrite Ht in Hnth.
    destruct i as [|[|i]]; simpl in Hnth; congruence.
Qed.

(** C2. The chunk [document_qna_tool] selects attains the maximal
    similarity, and among the chunks that attain it, it is the one of least
    index: every chunk before the selected one is strictly less similar, so
    a chunk whose score ties with the selected one (or, what is the same,
    is maximal) comes at or after it.  The selection does not depend on the
    world it runs in: two runs on the same chunks and question select the
    same chunk. *)
Theorem ties_select_first_chunk pdf_path question texts w :
  fitz_open svc pdf_path = inr (map inr texts) ->
  chunks_of texts <> [] ->
  retrieval_ok svc (chunks_of texts) question ->
  exists i best_context w1 w2,
    extract_text svc pdf_path w = (inr (chunks_of texts), w1) /\
    semantic_search score_leb svc (chunks_of texts) question w1
    = (inr (i, best_context), w2) /\
    document_qna_tool score_leb svc pdf_path question w
    = try_except (answer_question svc best_context question)
                 document_qna_handler w2 /\
    nth_error (chunks_of texts) i = Some best_context /\
    (forall j c, nth_error (chunks_of texts) j = Some c ->
                 score_leb (sim question c) (sim question best_context)
                 = true) /\
    (forall j c, nth_error (chunks_of texts) j = Some c -> j < i ->
                 score_ltb score_leb (sim question c)
                           (sim question best_context) = true) /\
    (forall k c,
        nth_error (chunks_of texts) k = Some c ->
        score_leb (sim question best_context) (sim question c) = true ->
        i <= k) /\
    (forall k c,
        nth_error (chunks_of texts) k = Some c ->
        (forall j c', nth_error (chunks_of texts) j = Some c' ->
                      score_leb (sim question c') (sim question c) = true) ->
        i <= k) /\
    (forall w', fst (semantic_search score_leb svc (chunks_of texts)
                                     question w')
                = inr (i, best_context)).
Proof.
  intros Hopen Hne Hok.
  destruct (document_qna_tool_steps _ _ score_leb svc score_leb_total
              score_leb_trans pdf_path question texts w Hopen Hne Hok)
    as (i & best_context & w1 & w2 & Hext & Hsearch & Hnth & Hmax & Hrun).
  assert (Hbefore : forall j c,
             nth_error (chunks_of texts) j = Some c -> j < i ->
             score_ltb score_leb (sim question c)
                       (sim question best_context) = true).
  { intros j c Hj Hlt. apply (proj2 Hmax j); [|exact Hlt].
    rewrite nth_error_map, Hj. reflexivity. }
  exists i, best_context, w1, w2.
  split; [exact Hext|]. split; [exact Hsearch|]. split; [exact Hrun|].
  split; [exact Hnth|]. split; [|split; [exact Hbefore|split; [|split]]].
  - intros j c Hj. apply (proj2 Hmax j).
    rewrite nth_error_map, Hj. reflexivity.
  - intros k c Hk Htie.
    destruct (Nat.le_gt_cases i k) as [Hle|Hgt]; [exact Hle|exfalso].
    specialize (Hbefore k c Hk Hgt). unfold score_ltb in Hbefore.
    rewrite Htie in Hbefore. discriminate.
  - intros k c Hk Hc.
    apply (first_max_least score score_leb _ i _ k (sim question c) Hmax).
    + rewrite nth_error_map, Hk. reflexivity.
    + intros j x Hj. rewrite nth_error_map in Hj.
      destruct (nth_error (chunks_of texts) j) as [c'|] eqn:Hc';
        [|discriminate].
      simpl in Hj. injection Hj as Hx. subst x. now apply (Hc j).
  - intros w'.
    destruct (semantic_search_ok _ _ score_leb svc score_leb_total
                score_leb_trans (chunks_of texts) question Hne Hok)
      as (i' & ctx' & Hs' & _ & _).
    rewrite (Hs' w'). rewrite (Hs' w1) in Hsearch.
    simpl. congruence.
Qed.

Lemma no_chunk_when_blank texts :
  Forall (fun t => strip t = ""%string) texts -> chunks_of texts = [].
Proof.
  induction 1 as [|t texts Ht _ IH]; simpl; [reflexivity|].
  unfold kept at 1. now rewrite Ht.
Qed.

(** C3. When every page of the document yields a text that is empty once
    stripped, [document_qna_tool] returns "No text found in the PDF." and
    none of the calls it makes goes to the embedding model or to the
    generation model. *)
Theorem blank_document_no_text_found pdf_path question texts w :
  fitz_open svc pdf_path = inr (map inr texts) ->
  Forall (fun t => strip t = ""%string) texts ->
  exists new,
    document_qna_tool score_leb svc pdf_path question w
    = (inr "No text found in the PDF."%string, logged w new) /\
    Forall (fun ev => calls_model ev = false) new.
Proof.
  intros Hopen Hblank.
  exists (EvFitzOpen pdf_path
          :: map EvGetText (seq 0 (length texts)) ++ [EvDocClose pdf_path]).
  split.
  - unfold document_qna_tool, try_except, document_qna_body, bind.
    rewrite (extract_text_ok _ _ svc pdf_path texts w Hopen).
    now rewrite (no_chunk_when_blank texts Hblank).
  - constructor; [reflexivity|]. apply Forall_app. split.
    + apply Forall_forall. intros ev Hev.
      apply in_map_iff in Hev. destruct Hev as (n & <- & _). reflexivity.
    + now constructor.
Qed.

(** C5. When extraction gave chunks, the search selected [best_context]
    and the generation model returns at least one generation for the
    prompt, [document_qna_tool] has called the model once, with the prompt
    "Context: " + best_context + "\nQuestion: " + question and
    max_new_tokens = 100, and returns "Answer: " followed by the first
    generated text stripped, which neither starts nor ends with
    whitespace. *)
Theorem answer_is_prefixed_and_stripped
        pdf_path question text_chunks i best_context g rest w w1 w2 :
  extract_text svc pdf_path w = (inr text_chunks, w1) ->
  text_chunks <> [] ->
  semantic_search score_leb svc text_chunks question w1
  = (inr (i, best_context), w2) ->
  qa_pipeline svc
    ("Context: " ++ best_context ++ nl ++ "Question: " ++ question)%string
    100%Z
  = inr (g :: rest) ->
  exists body,
    document_qna_tool score_leb svc pdf_path question w
    = (inr ("Answer: " ++ body)%string,
       logged w2
         [EvQaPipeline
            ("Context: " ++ best_context ++ nl ++ "Question: " ++ question)%string
            100%Z]) /\
    body = strip (generated_text g) /\
    startswith "Answer: " ("Answer: " ++ body)%string = true /\
    (forall c, first_char body = Some c -> isspace c = false) /\
    (forall c, last_char body = Some c -> isspace c = false).
Proof.
  intros Hext Hne Hsearch Hgen.
  exists (strip (generated_text g)).
  split; [|split; [reflexivity|split; [reflexivity|split]]].
  - unfold document_qna_tool, try_except, document_qna_body, bind.
    rewrite Hext. destruct text_chunks as [|c cs]; [congruence|].
    rewrite Hsearch. simpl snd.
    unfold answer_question, qa_pipeline_call, bind, emit, make_prompt.
    simpl in Hgen |- *. rewrite Hgen. reflexivity.
  - apply strip_first.
  - apply strip_last.
Qed.

(** C6. When the pages of the document yield the texts [texts], the chunk
    list is the list of those texts, unchanged and in page order, that are
    not empty once stripped; and the scores computed for it are, index by
    index, the similarities of its chunks to the question. *)
Theorem chunks_are_nonblank_pages_in_order pdf_path question texts w :
  fitz_open svc pdf_path = inr (map inr texts) ->
  exists w1,
    extract_text svc pdf_path w = (inr (chunks_of texts), w1) /\
    (forall t, In t (chunks_of texts)
               <-> In t texts /\ strip t <> ""%string) /\
    (retrieval_ok svc (chunks_of texts) question ->
     exists scores w2,
       similarity_scores svc (chunks_of texts) question w1
       = (inr scores, w2) /\
       length scores = length (chunks_of texts) /\
       forall k, nth_error scores k
                 = option_map (sim question)
                              (nth_error (chunks_of texts) k)).
Proof.
  intros Hopen. eexists. split; [|split].
  - apply (extract_text_ok _ _ svc pdf_path texts w Hopen).
  - intros t. rewrite filter_In. unfold kept.
    now rewrite truthy_true.
  - intros Hok. eexists. eexists. split; [|split].
    + apply (similarity_scores_ok _ _ svc _ question _ Hok).
    + apply length_map.
    + intros k. apply nth_error_map.
Qed.

End PipelineClaims.

(** ** Faults stay inside the pipeline *)

Section Discipline.

Lemma disciplined_ret {A} (a : A) : disciplined (ret a).
Proof.
  intros w. exists []. simpl. rewrite app_nil_r. split; [reflexivity|].
  intros e' [].
Qed.

Lemma disciplined_raise {A} (e : exception) : disciplined (@raise A e).
Proof.
  intros w. exists []. simpl. rewrite app_nil_r. split; [reflexivity|].
  intros e' [].
Qed.

Lemma disciplined_emit ev :
  (forall e, ev <> EvRaised e) -> disciplined (emit ev).
Proof.
  intros Hev w. exists [ev]. simpl. split; [reflexivity|].
  intros e' [H|[]]. now apply (Hev e').
Qed.

Lemma disciplined_outcome {A} (r : exception + A) : disciplined (outcome r).
Proof.
  destruct r as [e|a]; [|apply disciplined_ret].
  intros w. exists [EvRaised e]. simpl. split; [reflexivity|].
  intros e' [H|[]]. congruence.
Qed.

Lemma disciplined_bind {A B} (m : M A) (f : A -> M B) :
  disciplined m -> (forall a, disciplined (f a)) -> disciplined (bind m f).
Proof.
  intros Hm Hf w. unfold bind.
  destruct (Hm w) as (n1 & Ht1 & Hr1).
  destruct (m w) as [[e|a] w1]; simpl in *.
  - exists n1. now split.
  - destruct (Hf a w1) as (n2 & Ht2 & Hr2).
    exists (n1 ++ n2). rewrite Ht2, Ht1, app_assoc. split; [reflexivity|].
    destruct (fst (f a w1)) as [e|b]; intros e' Hin;
      apply in_app_or in Hin; destruct Hin as [Hin|Hin].
    + now destruct (Hr1 e').
    + now apply Hr2.
    + now apply (Hr1 e').
    + now apply (Hr2 e').
Qed.

Lemma disciplined_getitem {A} (l : list A) i : disciplined (getitem l i).
Proof.
  unfold getitem. destruct (nth_error l i);
    [apply disciplined_ret | apply disciplined_raise].
Qed.

Lemma disciplined_silent {A} (m : M A) :
  (forall w, trace (snd (m w)) = trace w) -> disciplined m.
Proof.
  intros Hm w. exists []. rewrite app_nil_r. split; [apply Hm|].
  destruct (fst (m w)); intros e' [].
Qed.

End Discipline.

Create HintDb discipline.
#[local] Hint Resolve disciplined_ret disciplined_raise disciplined_outcome
  disciplined_getitem : discipline.
#[local] Hint Extern 1 (disciplined (bind _ _)) =>
  apply disciplined_bind; [|intros ?] : discipline.
#[local] Hint Extern 1 (disciplined (emit _)) =>
  apply disciplined_emit; discriminate : discipline.

Section NoFaultEscapes.

Variables vector score : Type.
Variable score_leb : score -> score -> bool.
Variable svc : services vector score.

Lemma disciplined_extract_pages pages :
  forall n acc, disciplined (extract_pages pages n acc).
Proof.
  induction pages as [|page rest IH]; intros n acc; simpl.
  - auto with discipline.
  - unfold get_text. apply disciplined_bind; [auto with discipline|].
    intros text. destruct (truthy (strip text)); apply IH.
Qed.

Lemma disciplined_extract_text pdf_path :
  disciplined (extract_text svc pdf_path).
Proof.
  unfold extract_text, fitz_open_call.
  apply disciplined_bind.
  - apply disciplined_bind; [auto with discipline|]. intros _.
    apply disciplined_bind; [auto with discipline|]. intros pages.
    now apply disciplined_silent.
  - intros doc. apply disciplined_bind;
      [apply disciplined_extract_pages|]. intros chunks.
    apply disciplined_bind; [|auto with discipline].
    intros w. exists [EvDocClose (doc_path doc)]. simpl.
    split; [reflexivity|]. intros e' [H|[]]. discriminate.
Qed.

Lemma disciplined_argmax scores : disciplined (argmax score_leb scores).
Proof. destruct scores; simpl; auto with discipline. Qed.

Lemma disciplined_semantic_search text_chunks question :
  disciplined (semantic_search score_leb svc text_chunks question).
Proof.
  unfold semantic_search, similarity_scores, encode_list, encode_str,
    pytorch_cos_sim.
  pose proof disciplined_argmax. auto 20 with discipline.
Qed.

Lemma disciplined_answer_question best_context question :
  disciplined (answer_question svc best_context question).
Proof.
  unfold answer_question, qa_pipeline_call. auto 20 with discipline.
Qed.

Lemma disciplined_body pdf_path question :
  disciplined (document_qna_body score_leb svc pdf_path question).
Proof.
  unfold document_qna_body.
  apply disciplined_bind; [apply disciplined_extract_text|].
  intros [|c cs]; [auto with discipline|].
  apply disciplined_bind; [apply disciplined_semantic_search|].
  intros found. apply disciplined_answer_question.
Qed.

(** C4. [document_qna_tool] returns a string on every path: whatever the
    collaborators do, it never ends with an exception.  When one of them
    raised [e] (recorded in the trace), or the body ended with [e] for any
    other reason, the string returned is "Error processing document QnA: "
    followed by [str(e)]. *)
Theorem document_qna_tool_never_raises pdf_path question w :
  exists out new,
    fst (document_qna_tool score_leb svc pdf_path question w) = inr out /\
    trace (snd (document_qna_tool score_leb svc pdf_path question w))
    = trace w ++ new /\
    forall e,
      In (EvRaised e) new \/
      fst (document_qna_body score_leb svc pdf_path question w) = inl e ->
      out = ("Error processing document QnA: " ++ str_e e)%string /\
      startswith "Error processing document QnA:" out = true.
Proof.
  destruct (disciplined_body pdf_path question w) as (new & Htrace & Hnew).
  unfold document_qna_tool, try_except.
  destruct (document_qna_body score_leb svc pdf_path question w)
    as [[e|out] w1]; simpl in *.
  - exists ("Error processing document QnA: " ++ str_e e)%string, new.
    repeat split; try assumption.
    + destruct H as [Hin|Heq]; [apply Hnew in Hin|injection Heq as Heq];
        now subst.
  - exists out, new. repeat split; try assumption;
      destruct H as [Hin|Heq]; solve [now apply Hnew in Hin | discriminate].
Qed.

End NoFaultEscapes.


(** ** The document handle *)

Section Handles.

Lemma keeps_ret {A} (a : A) : keeps_handles (ret a).
Proof. now intros w. Qed.

Lemma keeps_raise {A} (e : exception) : keeps_handles (@raise A e).
Proof. now intros w. Qed.

Lemma keeps_emit ev : keeps_handles (emit ev).
Proof. now intros w. Qed.

Lemma keeps_outcome {A} (r : exception + A) : keeps_handles (outcome r).
Proof. destruct r; now intros w. Qed.

Lemma keeps_getitem {A} (l : list A) i : keeps_handles (getitem l i).
Proof. unfold getitem. destruct (nth_error l i); now intros w. Qed.

Lemma keeps_bind {A B} (m : M A) (f : A -> M B) :
  keeps_handles m -> (forall a, keeps_handles (f a)) ->
  keeps_handles (bind m f).
Proof.
  intros Hm Hf w. unfold bind. specialize (Hm w).
  destruct (m w) as [[e|a] w1]; simpl in *; [exact Hm|].
  now rewrite Hf.
Qed.

Lemma keeps_try_except {A} (m : M A) (h : exception -> M A) :
  keeps_handles m -> (forall e, keeps_handles (h e)) ->
  keeps_handles (try_except m h).
Proof.
  intros Hm Hh w. unfold try_except. specialize (Hm w).
  destruct (m w) as [[e|a] w1]; simpl in *; [|exact Hm].
  now rewrite Hh.
Qed.

End Handles.

Create HintDb handles.
#[local] Hint Resolve keeps_ret keeps_raise keeps_emit keeps_outcome
  keeps_getitem : handles.
#[local] Hint Extern 1 (keeps_handles (bind _ _)) =>
  apply keeps_bind; [|intros ?] : handles.

Section HandleFacts.

Variables vector score : Type.
Variable score_leb : score -> score -> bool.
Variable svc : services vector score.

Lemma keeps_extract_pages pages :
  forall n acc, keeps_handles (extract_pages pages n acc).
Proof.
  induction pages as [|page rest IH]; intros n acc; simpl.
  - auto with handles.
  - unfold get_text. apply keeps_bind; [auto with handles|].
    intros text. destruct (truthy (strip text)); apply IH.
Qed.

Lemma keeps_semantic_search text_chunks question :
  keeps_handles (semantic_search score_leb svc text_chunks question).
Proof.
  unfold semantic_search, similarity_scores, encode_list, encode_str,
    pytorch_cos_sim.
  assert (forall l, keeps_handles (argmax score_leb l))
    by (intros [|x l]; simpl; auto with handles).
  auto 20 with handles.
Qed.

Lemma keeps_answer_question best_context question :
  keeps_handles (answer_question svc best_context question).
Proof. unfold answer_question, qa_pipeline_call. auto 20 with handles. Qed.

(** A page that raises stops the loop with that exception. *)
Lemma extract_pages_raises pages :
  (exists e, In (inl e) pages) ->
  forall n acc w, exists e, fst (extract_pages pages n acc w) = inl e.
Proof.
  induction pages as [|page rest IH]; intros [e Hin] n acc w;
    [destruct Hin|].
  simpl. unfold bind at 1, get_text, bind at 1, emit.
  destruct page as [e'|text]; simpl.
  - now exists e'.
  - destruct Hin as [Heq|Hin]; [discriminate|].
    destruct (truthy (strip text)); apply IH; now exists e.
Qed.

(** X7. The handle is released whenever the loop over the pages completes,
    whatever happens afterwards, and nothing is acquired when [fitz.open]
    itself raises. *)
Lemma handle_released_when_pages_extract pdf_path question w :
  (forall pages, fitz_open svc pdf_path = inr pages ->
                 forall e, ~ In (inl e) pages) ->
  open_docs (snd (document_qna_tool score_leb svc pdf_path question w))
  = open_docs w.
Proof.
  intros Hpages.
  unfold document_qna_tool, try_except, document_qna_body, extract_text,
    fitz_open_call, bind at 1 2 3 4, emit.
  destruct (fitz_open svc pdf_path) as [e|pages] eqn:Hopen; simpl;
    [reflexivity|].
  specialize (Hpages pages eq_refl).
  assert (Htexts : exists texts, pages = map inr texts).
  { clear Hopen. induction pages as [|[e|t] pages IH].
    - now exists [].
    - destruct (Hpages e). now left.
    - destruct IH as [texts ->].
      + intros e Hin. apply (Hpages e). now right.
      + now exists (t :: texts). }
  destruct Htexts as [texts ->].
  unfold bind at 1. rewrite extract_pages_texts. simpl.
  rewrite String.eqb_refl.
  destruct (filter kept texts) as [|c cs]; simpl; [reflexivity|].
  set (w1 := mkWorld _ _).
  change (open_docs w) with (open_docs w1).
  pose proof (keeps_bind _ _
                (keeps_semantic_search (c :: cs) question)
                (fun found => keeps_answer_question (snd found) question) w1)
    as Hk.
  destruct (bind _ _ w1) as [[e|out] w2]; simpl in *; exact Hk.
Qed.

(** X8. A page that raises leaves the handle open: [doc.close()] is skipped
    and the handler does not close it either. *)
Lemma handle_left_open_when_page_raises pdf_path question w pages e :
  fitz_open svc pdf_path = inr pages ->
  In (inl e) pages ->
  open_docs (snd (document_qna_tool score_leb svc pdf_path question w))
  = pdf_path :: open_docs w.
Proof.
  intros Hopen Hin.
  unfold document_qna_tool, try_except, document_qna_body, extract_text,
    fitz_open_call, bind at 1 2 3 4, emit.
  rewrite Hopen. simpl. unfold bind at 1.
  set (w1 := mkWorld _ _).
  change (pdf_path :: open_docs w) with (open_docs w1).
  destruct (extract_pages_raises pages (ex_intro _ e Hin) 0 [] w1)
    as [e' He'].
  pose proof (keeps_extract_pages pages 0 [] w1) as Hk.
  destruct (extract_pages pages 0 [] w1) as [[e''|chunks] w2];
    simpl in *; [exact Hk|discriminate].
Qed.

End HandleFacts.

(** ** The dispatch layer *)

Lemma has_text_iff query :
  GradioUI.has_text query = true <-> strip query <> ""%string.
Proof.
  unfold GradioUI.has_text. rewrite andb_true_iff, !truthy_true.
  split; [now intros [_ H]|]. intros H. split; [|exact H].
  intros ->. now apply H.
Qed.

Lemma has_text_false_iff query :
  GradioUI.has_text query = false <-> strip query = ""%string.
Proof.
  rewrite <- not_true_iff_false, has_text_iff.
  destruct (string_dec (strip query) ""); tauto.
Qed.

(** What the branch for a file and a question does, by what
    [agent.tools[4]] gives. *)
Lemma ask_document_run agent query pdf_file w :
  GradioUI.ask_document agent query pdf_file w
  = match GradioUI.subscript (GradioUI.tools agent) 4
            (announced w query pdf_file)
    with
    | (inr document_qna, w1) =>
        match GradioUI.call document_qna (GradioUI.name pdf_file) query w1 with
        | (inr response, w2) =>
            (inr response, printed w2 ["Document Q&A tool finished."%string])
        | (inl e, w2) =>
            if is_IndexError e then (inr (PyStr GradioUI.tool_not_found), w2)
            else (inr (PyStr ("An error occurred during Document Q&A: "
                              ++ str_e e)%string),
                  printed w2
                    [("Error during Document Q&A tool execution: "
                      ++ str_e e)%string])
        end
    | (inl e, w1) =>
        if is_IndexError e then (inr (PyStr GradioUI.tool_not_found), w1)
        else (inr (PyStr ("An error occurred during Document Q&A: "
                          ++ str_e e)%string),
              printed w1
                [("Error during Document Q&A tool execution: "
                  ++ str_e e)%string])
    end.
Proof.
  unfold GradioUI.ask_document, print, bind at 1 2, emit, try_except.
  unfold bind at 1, emit. unfold bind at 1, GradioUI.tool_index.
  unfold announced, printed, logged. simpl. rewrite <- !app_assoc. simpl.
  match goal with
  | |- context [GradioUI.subscript ?c 4 ?w0] =>
      destruct (GradioUI.subscript c 4 w0) as [[e|document_qna] w1]
  end.
  - destruct (is_IndexError e); reflexivity.
  - unfold bind at 1.
    destruct (GradioUI.call document_qna (GradioUI.name pdf_file) query w1)
      as [[e|response] w2].
    + destruct (is_IndexError e); reflexivity.
    + reflexivity.
Qed.

Lemma ask_agent_run agent query w :
  GradioUI.ask_agent agent query w
  = match GradioUI.run agent query
            (logged w
               [EvPrint ("No PDF file or query is for general task. Processing with agent.run(): "
                         ++ query)%string;
                EvAgentRun query])
    with
    | (inr response, w2) =>
        (inr response, printed w2 ["Agent.run finished for general query."%string])
    | (inl e, w2) =>
        (inr (PyStr ("An error occurred while processing your request: "
                     ++ str_e e)%string),
         printed w2 [("Error during agent.run: " ++ str_e e)%string])
    end.
Proof.
  unfold GradioUI.ask_agent, GradioUI.agent_run, print, bind at 1, emit,
    try_except.
  unfold bind at 1 2, emit. unfold logged. simpl. rewrite <- !app_assoc.
  simpl.
  match goal with
  | |- context [GradioUI.run agent query ?w0] =>
      destruct (GradioUI.run agent query w0) as [[e|response] w2]
  end; reflexivity.
Qed.

Lemma document_qna_tool_returns {vector score}
      (score_leb : score -> score -> bool) (svc : services vector score)
      pdf_path question w :
  exists out w',
    document_qna_tool score_leb svc pdf_path question w = (inr out, w').
Proof.
  unfold document_qna_tool, try_except.
  destruct (document_qna_body score_leb svc pdf_path question w)
    as [[e|out] w']; eexists; eexists; reflexivity.
Qed.

(** With the tools in a dict keyed by name, index 4 is no key: the lookup
    raises [KeyError(4)], which the general handler reports. *)
Lemma ask_document_dict agent entries query pdf_file w :
  GradioUI.tools agent = GradioUI.ToolDict entries ->
  GradioUI.ask_document agent query pdf_file w
  = (inr (PyStr "An error occurred during Document Q&A: 4"),
     printed (announced w query pdf_file)
             ["Error during Document Q&A tool execution: 4"%string]).
Proof.
  intros Htools. rewrite ask_document_run, Htools. reflexivity.
Qed.

(** ** The demonstration world *)

Lemma Zleb_total (a b : Z) : Z.leb a b = true \/ Z.leb b a = true.
Proof. rewrite !Z.leb_le. lia. Qed.

Lemma Zleb_trans (a b c : Z) :
  Z.leb a b = true -> Z.leb b c = true -> Z.leb a c = true.
Proof. rewrite !Z.leb_le. lia. Qed.

Lemma selects_most_similar_chunk_witness :
  fitz_open Demo.demo_services "two.pdf" = inr (map inr Demo.two_pages) /\
  exists i best_context w2,
    nth_error (filter kept Demo.two_pages) i = Some best_context /\
    (forall j c,
        nth_error (filter kept Demo.two_pages) j = Some c ->
        Z.leb (similarity Demo.demo_services Demo.question c)
              (similarity Demo.demo_services Demo.question best_context)
        = true) /\
    document_qna_tool Z.leb Demo.demo_services "two.pdf" Demo.question
                      initial_world
    = try_except
        (answer_question Demo.demo_services best_context Demo.question)
        document_qna_handler w2 /\
    (forall t, filter kept Demo.two_pages = [t] -> best_context = t).
Proof.
  split; [reflexivity|].
  apply (selects_most_similar_chunk Z Z Z.leb Demo.demo_services
           Zleb_total Zleb_trans "two.pdf" Demo.question Demo.two_pages
           initial_world).
  - reflexivity.
  - vm_compute. discriminate.
  - repeat split.
Defined.

(** The document "tied.pdf": the second and third pages tie for the
    maximum and the second is selected. *)
Lemma ties_select_first_chunk_witness :
  similarity Demo.tied_services Demo.question Demo.berlin
  = similarity Demo.tied_services Demo.question Demo.vienna /\
  Z.ltb (similarity Demo.tied_services Demo.question Demo.rome)
        (similarity Demo.tied_services Demo.question Demo.berlin) = true /\
  exists w1 w2,
    extract_text Demo.tied_services "tied.pdf" initial_world
    = (inr [Demo.rome; Demo.berlin; Demo.vienna], w1) /\
    semantic_search Z.leb Demo.tied_services
                    [Demo.rome; Demo.berlin; Demo.vienna] Demo.question w1
    = (inr (1, Demo.berlin), w2) /\
    document_qna_tool Z.leb Demo.tied_services "tied.pdf" Demo.question
                      initial_world
    = try_except
        (answer_question Demo.tied_services Demo.berlin Demo.question)
        document_qna_handler w2.
Proof.
  split; [reflexivity|]. split; [reflexivity|].
  destruct (ties_select_first_chunk Z Z Z.leb Demo.tied_services
              Zleb_total Zleb_trans "tied.pdf" Demo.question Demo.tied_pages
              initial_world)
    as (i & best_context & w1 & w2 & Hext & Hsearch & Hrun & Hnth & Hmax
        & _ & Htie & _).
  - reflexivity.
  - vm_compute. discriminate.
  - repeat split.
  - change (filter kept Demo.tied_pages)
      with [Demo.rome; Demo.berlin; Demo.vienna] in *.
    assert (Hi : i = 1).
    { clear Hext Hsearch Hrun.
      destruct i as [|[|[|i]]]; simpl in Hnth; try discriminate.
      - injection Hnth as Hb. subst best_context.
        specialize (Hmax 1 Demo.berlin eq_refl). vm_compute in Hmax.
        discriminate.
      - reflexivity.
      - injection Hnth as Hb. subst best_context.
        specialize (Htie 1 Demo.berlin eq_refl eq_refl). lia.
      - destruct i; discriminate. }
    subst i. simpl in Hnth. injection Hnth as Hb. subst best_context.
    exists w1, w2. repeat split; assumption.
Defined.

Lemma blank_document_no_text_found_witness :
  Forall (fun t => strip t = ""%string) Demo.blank_pages /\
  exists new,
    document_qna_tool Z.leb Demo.demo_services "blank.pdf" Demo.question
                      initial_world
    = (inr "No text found in the PDF."%string, logged initial_world new) /\
    Forall (fun ev => calls_model ev = false) new.
Proof.
  assert (Hblank : Forall (fun t => strip t = ""%string) Demo.blank_pages)
    by (repeat constructor).
  split; [exact Hblank|].
  apply (blank_document_no_text_found Z Z Z.leb Demo.demo_services
           "blank.pdf" Demo.question Demo.blank_pages initial_world).
  - reflexivity.
  - exact Hblank.
Defined.

Lemma answer_is_prefixed_and_stripped_witness :
  exists body w',
    document_qna_tool Z.leb Demo.demo_services "two.pdf" Demo.question
                      initial_world
    = (inr ("Answer: " ++ body)%string, w') /\
    body = "Berlin"%string.
Proof.
  destruct (answer_is_prefixed_and_stripped Z Z Z.leb Demo.demo_services
              "two.pdf" Demo.question [Demo.paris; Demo.berlin] 1
              Demo.berlin (mkGeneration "  Berlin ") [] initial_world
              (logged initial_world
                 [EvFitzOpen "two.pdf"; EvGetText 0; EvGetText 1;
                  EvGetText 2; EvDocClose "two.pdf"])
              (logged initial_world
                 [EvFitzOpen "two.pdf"; EvGetText 0; EvGetText 1;
                  EvGetText 2; EvDocClose "two.pdf";
                  EvEncode (EncList [Demo.paris; Demo.berlin]);
                  EvEncode (EncStr Demo.question); EvCosSim]))
    as (body & Hrun & Hbody & _).
  - reflexivity.
  - discriminate.
  - reflexivity.
  - reflexivity.
  - exists body. eexists. split; [exact Hrun|]. rewrite Hbody. reflexivity.
Defined.

Lemma chunks_are_nonblank_pages_in_order_witness :
  exists w1,
    extract_text Demo.demo_services "two.pdf" initial_world
    = (inr [Demo.paris; Demo.berlin], w1).
Proof.
  destruct (chunks_are_nonblank_pages_in_order Z Z Demo.demo_services
              "two.pdf" Demo.question Demo.two_pages initial_world)
    as (w1 & Hext & _).
  - reflexivity.
  - exists w1. exact Hext.
Defined.

(** C7. On the document "broken.pdf", which opens and whose second page
    raises when its text is extracted, [document_qna_tool] returns the error
    message while the handle it opened is still open: [doc.close()] was
    never reached. *)
Theorem page_fault_leaves_document_open :
  document_qna_tool Z.leb Demo.demo_services "broken.pdf" Demo.question
                    initial_world
  = (inr "Error processing document QnA: boom"%string,
     mkWorld [EvFitzOpen "broken.pdf"; EvGetText 0; EvGetText 1;
              EvRaised Demo.boom]
             ["broken.pdf"%string]).
Proof. reflexivity. Qed.


(** C8. With the agent as app.py builds it, a file and a question,
    [process_input] does not invoke the document pipeline: the lookup
    [agent.tools[4]] raises [KeyError(4)] and the reply is the error
    message of the general handler.  The trace holds the four printed
    lines and nothing else: no document was opened. *)
Theorem document_branch_does_not_reach_the_pipeline :
  GradioUI.process_input Demo.demo_agent Demo.question
                         (Some (GradioUI.mkFile "two.pdf")) initial_world
  = (inr (PyStr "An error occurred during Document Q&A: 4"),
     mkWorld
       [EvPrint "PDF file uploaded: two.pdf";
        EvPrint "Query (assumed question for PDF): What is the capital of Germany?";
        EvPrint "Detected PDF upload and query. Calling document_qna_tool...";
        EvPrint "Error during Document Q&A tool execution: 4"]
       []).
Proof. reflexivity. Qed.

(** C9. The list app.py registers has the document tool at position 4,
    but the agent built from it keeps a dict keyed by name: subscripting it
    with 4 finds no tool and raises [KeyError], not [IndexError], so
    [process_input] answers neither with the tool nor with the fixed
    "tool not found" message. *)
Theorem index_4_is_not_a_key_of_the_tools :
  nth_error (registered_tools Z.leb Demo.demo_services Demo.noop_tool
                              Demo.noop_tool Demo.noop_tool Demo.noop_tool
                              Demo.noop_tool) 4
  = Some Demo.demo_tool /\
  fst (GradioUI.subscript (GradioUI.tools Demo.demo_agent) 4 initial_world)
  = inl (mkException (OtherError "KeyError") "4") /\
  fst (GradioUI.process_input Demo.demo_agent "Summarise the document"
                              (Some (GradioUI.mkFile "one.pdf"))
                              initial_world)
  = inr (PyStr "An error occurred during Document Q&A: 4") /\
  "An error occurred during Document Q&A: 4"%string
  <> GradioUI.tool_not_found.
Proof. repeat split. discriminate. Qed.

(** C10. With an agent whose final answer is the number 42,
    [process_input] returns that number as it is: the value returned is not
    a [str]. *)
Theorem process_input_returns_what_the_agent_returned :
  GradioUI.process_input Demo.number_agent "What is 6 times 7?" None
                         initial_world
  = (inr (PyObject "42"),
     mkWorld
       [EvPrint "No PDF file or query is for general task. Processing with agent.run(): What is 6 times 7?";
        EvAgentRun "What is 6 times 7?";
        EvPrint "Agent.run finished for general query."]
       []).
Proof. reflexivity. Qed.

(** * Further properties of the code *)

(** ** The search returns a chunk of the list, whatever the comparison *)

Section SearchInRange.

Variables vector score : Type.
Variable score_leb : score -> score -> bool.
Variable svc : services vector score.

Lemma argmax_from_bound l :
  forall best_idx best i,
    best_idx < i ->
    argmax_from score_leb best_idx best i l < i + length l.
Proof.
  induction l as [|x l IH]; intros best_idx best i Hlt; simpl; [lia|].
  destruct (score_ltb score_leb best x).
  - specialize (IH i x (S i)). lia.
  - specialize (IH best_idx best (S i)). lia.
Qed.

(** X1. No assumption is made on how scores compare (the comparison may
    fail to be an order, as with NaN): when the chunk list is not empty and
    the encoder and the similarity call do not raise, [argmax] yields an
    index inside the chunk list, so the indexing of line 113 never raises
    and the search returns the chunk at that index. *)
Theorem semantic_search_returns_a_chunk text_chunks question :
  text_chunks <> [] ->
  retrieval_ok svc text_chunks question ->
  exists i best_context,
    nth_error text_chunks i = Some best_context /\
    forall w,
      semantic_search score_leb svc text_chunks question w
      = (inr (i, best_context),
         logged w [EvEncode (EncList text_chunks);
                   EvEncode (EncStr question); EvCosSim]).
Proof.
  intros Hne Hok.
  destruct text_chunks as [|c cs]; [congruence|].
  set (i := argmax_from score_leb 0 (similarity svc question c) 1
              (map (similarity svc question) cs)).
  assert (Hi : i < length (c :: cs)).
  { pose proof (argmax_from_bound (map (similarity svc question) cs)
                  0 (similarity svc question c) 1) as Hb.
    rewrite length_map in Hb. simpl. unfold i. lia. }
  destruct (nth_error (c :: cs) i) as [best_context|] eqn:Hnth;
    [|apply nth_error_None in Hnth; lia].
  exists i, best_context. split; [exact Hnth|].
  intros w. unfold semantic_search, bind.
  rewrite (similarity_scores_ok _ _ svc (c :: cs) question w Hok).
  simpl map. unfold argmax, ret at 1. fold i.
  unfold getitem. rewrite Hnth. reflexivity.
Qed.

End SearchInRange.

Lemma semantic_search_returns_a_chunk_witness :
  exists i best_context,
    nth_error [Demo.paris; Demo.berlin] i = Some best_context /\
    forall w,
      semantic_search (fun _ _ : Z => false) Demo.demo_services
                      [Demo.paris; Demo.berlin] Demo.question w
      = (inr (i, best_context),
         logged w [EvEncode (EncList [Demo.paris; Demo.berlin]);
                   EvEncode (EncStr Demo.question); EvCosSim]).
Proof.
  apply (semantic_search_returns_a_chunk Z Z (fun _ _ => false)
           Demo.demo_services [Demo.paris; Demo.berlin] Demo.question).
  - discriminate.
  - repeat split.
Defined.

(** ** What the pipeline returns, and in which order it calls *)

Section TraceFacts.

Lemma emits_ret P {A} (a : A) : emits_only P (ret a).
Proof. intros w. exists []. simpl. now rewrite app_nil_r. Qed.

Lemma emits_raise P {A} (e : exception) : emits_only P (@raise A e).
Proof. intros w. exists []. simpl. now rewrite app_nil_r. Qed.

Lemma emits_emit (P : event -> Prop) ev : P ev -> emits_only P (emit ev).
Proof. intros Hev w. exists [ev]. simpl. split; [reflexivity|]. now constructor. Qed.

Lemma emits_outcome (P : event -> Prop) {A} (r : exception + A) :
  (forall e, P (EvRaised e)) -> emits_only P (outcome r).
Proof.
  intros HP. destruct r as [e|a]; [|apply emits_ret].
  intros w. exists [EvRaised e]. simpl. split; [reflexivity|].
  constructor; [apply HP|constructor].
Qed.

Lemma emits_getitem P {A} (l : list A) i : emits_only P (getitem l i).
Proof.
  unfold getitem. destruct (nth_error l i); [apply emits_ret|apply emits_raise].
Qed.

Lemma emits_bind P {A B} (m : M A) (f : A -> M B) :
  emits_only P m -> (forall a, emits_only P (f a)) -> emits_only P (bind m f).
Proof.
  intros Hm Hf w. unfold bind. destruct (Hm w) as (n1 & Ht1 & HP1).
  destruct (m w) as [[e|a] w1]; simpl in *.
  - now exists n1.
  - destruct (Hf a w1) as (n2 & Ht2 & HP2). exists (n1 ++ n2).
    rewrite Ht2, Ht1, app_assoc. split; [reflexivity|].
    apply Forall_app. now split.
Qed.

Lemma emits_try_except P {A} (m : M A) (h : exception -> M A) :
  emits_only P m -> (forall e, emits_only P (h e)) ->
  emits_only P (try_except m h).
Proof.
  intros Hm Hh w. unfold try_except. destruct (Hm w) as (n1 & Ht1 & HP1).
  destruct (m w) as [[e|a] w1]; simpl in *.
  - destruct (Hh e w1) as (n2 & Ht2 & HP2). exists (n1 ++ n2).
    rewrite Ht2, Ht1, app_assoc. split; [reflexivity|].
    apply Forall_app. now split.
  - now exists n1.
Qed.

Lemma no_fault_nil : no_fault [].
Proof. intros e []. Qed.

Lemma no_fault_app l1 l2 : no_fault l1 -> no_fault l2 -> no_fault (l1 ++ l2).
Proof.
  intros H1 H2 e Hin. apply in_app_or in Hin.
  destruct Hin; [now apply (H1 e)|now apply (H2 e)].
Qed.

Lemma last_ret {A} (a : A) : fault_is_last (ret a).
Proof.
  intros w. exists []. simpl. rewrite app_nil_r.
  split; [reflexivity|apply no_fault_nil].
Qed.

Lemma last_raise {A} (e : exception) : fault_is_last (@raise A e).
Proof.
  intros w. exists []. simpl. rewrite app_nil_r.
  split; [reflexivity|left; apply no_fault_nil].
Qed.

Lemma last_emit ev : (forall e, ev <> EvRaised e) -> fault_is_last (emit ev).
Proof.
  intros Hev w. exists [ev]. simpl. split; [reflexivity|].
  intros e [H|[]]. now apply (Hev e).
Qed.

Lemma last_outcome {A} (r : exception + A) : fault_is_last (outcome r).
Proof.
  destruct r as [e|a]; [|apply last_ret].
  intros w. exists [EvRaised e]. simpl. split; [reflexivity|].
  right. exists []. split; [reflexivity|apply no_fault_nil].
Qed.

Lemma last_getitem {A} (l : list A) i : fault_is_last (getitem l i).
Proof.
  unfold getitem. destruct (nth_error l i); [apply last_ret|apply last_raise].
Qed.

Lemma last_bind {A B} (m : M A) (f : A -> M B) :
  fault_is_last m -> (forall a, fault_is_last (f a)) ->
  fault_is_last (bind m f).
Proof.
  intros Hm Hf w. unfold bind. destruct (Hm w) as (n1 & Ht1 & Hr1).
  destruct (m w) as [[e|a] w1]; simpl in *.
  - now exists n1.
  - destruct (Hf a w1) as (n2 & Ht2 & Hr2). exists (n1 ++ n2).
    rewrite Ht2, Ht1, app_assoc. split; [reflexivity|].
    destruct (fst (f a w1)) as [e|b].
    + destruct Hr2 as [Hquiet|(before & -> & Hquiet)].
      * left. now apply no_fault_app.
      * right. exists (n1 ++ before). rewrite app_assoc.
        split; [reflexivity|now apply no_fault_app].
    + now apply no_fault_app.
Qed.

End TraceFacts.

Ltac emits_steps :=
  repeat first
    [ apply emits_bind; [|intros ?]
    | apply emits_ret
    | apply emits_raise
    | apply emits_getitem
    | apply emits_emit; exact I || reflexivity
    | apply emits_outcome; intros ?; exact I || reflexivity ].

Ltac last_steps :=
  repeat first
    [ apply last_bind; [|intros ?]
    | apply last_ret
    | apply last_raise
    | apply last_getitem
    | apply last_outcome
    | apply last_emit; discriminate ].

Section PipelineExtras.

Variables vector score : Type.
Variable score_leb : score -> score -> bool.
Variable svc : services vector score.

Local Abbreviation quiet := (fun ev => calls_model ev = false).

Lemma emits_extract_pages P pages :
  (forall n, P (EvGetText n)) -> (forall e, P (EvRaised e)) ->
  forall n acc, emits_only P (extract_pages pages n acc).
Proof.
  intros Hget Hraised.
  induction pages as [|page rest IH]; intros n acc; simpl.
  - apply emits_ret.
  - unfold get_text. apply emits_bind.
    + apply emits_bind; [now apply emits_emit|].
      intros _. now apply emits_outcome.
    + intros text. destruct (truthy (strip text)); apply IH.
Qed.

Lemma extract_text_run pdf_path w :
  extract_text svc pdf_path w
  = match fitz_open svc pdf_path with
    | inl e => (inl e, logged w [EvFitzOpen pdf_path; EvRaised e])
    | inr pages =>
        match extract_pages pages 0 []
                (mkWorld (trace w ++ [EvFitzOpen pdf_path])
                         (pdf_path :: open_docs w))
        with
        | (inl e, w2) => (inl e, w2)
        | (inr chunks, w2) =>
            (inr chunks,
             mkWorld (trace w2 ++ [EvDocClose pdf_path])
                     (remove_first pdf_path (open_docs w2)))
        end
    end.
Proof.
  unfold extract_text, fitz_open_call, bind, emit, logged.
  destruct (fitz_open svc pdf_path) as [e|pages]; simpl.
  - now rewrite <- app_assoc.
  - destruct (extract_pages pages 0 [] _) as [[e|chunks] w2]; reflexivity.
Qed.

Lemma emits_extract_text P pdf_path :
  P (EvFitzOpen pdf_path) -> P (EvDocClose pdf_path) ->
  (forall n, P (EvGetText n)) -> (forall e, P (EvRaised e)) ->
  emits_only P (extract_text svc pdf_path).
Proof.
  intros Hopen Hclose Hget Hraised w.
  rewrite extract_text_run.
  destruct (fitz_open svc pdf_path) as [e|pages]; simpl.
  - exists [EvFitzOpen pdf_path; EvRaised e].
    split; [reflexivity|]. now repeat constructor.
  - set (w1 := mkWorld _ _).
    destruct (emits_extract_pages P pages Hget Hraised 0 [] w1)
      as (n & Hn & HP).
    destruct (extract_pages pages 0 [] w1) as [[e|chunks] w2]; simpl in *.
    + exists (EvFitzOpen pdf_path :: n). rewrite Hn, <- app_assoc.
      split; [reflexivity|]. now constructor.
    + exists (EvFitzOpen pdf_path :: n ++ [EvDocClose pdf_path]).
      rewrite Hn, <- !app_assoc. split; [reflexivity|].
      constructor; [exact Hopen|]. apply Forall_app. split; [exact HP|].
      now constructor.
Qed.

Lemma emits_semantic_search P text_chunks question :
  (forall a, P (EvEncode a)) -> P EvCosSim -> (forall e, P (EvRaised e)) ->
  emits_only P (semantic_search score_leb svc text_chunks question).
Proof.
  intros Henc Hcos Hraised.
  assert (Hargmax : forall l, emits_only P (argmax score_leb l))
    by (intros [|x l]; simpl; [apply emits_raise|apply emits_ret]).
  unfold semantic_search, similarity_scores, encode_list, encode_str,
    pytorch_cos_sim.
  repeat first
    [ apply emits_bind; [|intros ?]
    | apply emits_ret
    | apply emits_getitem
    | apply Hargmax
    | apply emits_emit; solve [apply Henc | exact Hcos]
    | apply emits_outcome; exact Hraised ].
Qed.

Lemma emits_answer_question P best_context question :
  (forall p n, P (EvQaPipeline p n)) -> (forall e, P (EvRaised e)) ->
  emits_only P (answer_question svc best_context question).
Proof.
  intros Hqa Hraised. unfold answer_question, qa_pipeline_call.
  repeat first
    [ apply emits_bind; [|intros ?]
    | apply emits_ret
    | apply emits_getitem
    | apply emits_emit; apply Hqa
    | apply emits_outcome; exact Hraised ].
Qed.

Lemma emits_document_qna_tool pdf_path question :
  emits_only pipeline_event
             (document_qna_tool score_leb svc pdf_path question).
Proof.
  unfold document_qna_tool, document_qna_body.
  apply emits_try_except; [|intros e; apply emits_ret].
  apply emits_bind.
  - apply emits_extract_text; intros; exact I.
  - intros [|c cs]; [apply emits_ret|].
    apply emits_bind.
    + apply emits_semantic_search; intros; exact I.
    + intros found. apply emits_answer_question; intros; exact I.
Qed.

(** X2. [document_qna_tool] only ever talks to its own collaborators: the
    events it adds to the trace are document, encoder, similarity and
    generation calls and their faults; it prints nothing and never runs the
    agent. *)
Theorem document_qna_tool_emits_pipeline_events pdf_path question w :
  exists new,
    trace (snd (document_qna_tool score_leb svc pdf_path question w))
    = trace w ++ new /\
    (forall line, ~ In (EvPrint line) new) /\
    (forall task, ~ In (EvAgentRun task) new).
Proof.
  destruct (emits_document_qna_tool pdf_path question w)
    as (new & Htrace & Hnew).
  exists new. split; [exact Htrace|].
  rewrite Forall_forall in Hnew.
  split; intros x Hin; exact (Hnew _ Hin).
Qed.

Lemma answer_question_forms best_context question w out :
  fst (answer_question svc best_context question w) = inr out ->
  exists g, out = ("Answer: " ++ strip (generated_text g))%string.
Proof.
  unfold answer_question, qa_pipeline_call, bind, emit. simpl.
  destruct (qa_pipeline svc (make_prompt best_context question) 100)
    as [e|[|g rest]]; simpl; try discriminate.
  intros H. injection H as <-. now exists g.
Qed.

Lemma tool_output_of_run pdf_path question w :
  exists out,
    fst (document_qna_tool score_leb svc pdf_path question w) = inr out /\
    tool_output out.
Proof.
  unfold document_qna_tool, try_except, document_qna_body, bind at 1.
  destruct (extract_text svc pdf_path w) as [[e|[|c cs]] w1].
  - eexists. split; [reflexivity|constructor].
  - eexists. split; [reflexivity|constructor].
  - unfold bind.
    destruct (semantic_search score_leb svc (c :: cs) question w1)
      as [[e|found] w2].
    + eexists. split; [reflexivity|constructor].
    + pose proof (answer_question_forms (snd found) question w2) as Hforms.
      destruct (answer_question svc (snd found) question w2)
        as [[e|out] w3]; simpl in *.
      * eexists. split; [reflexivity|constructor].
      * destruct (Hforms out eq_refl) as [g ->].
        eexists. split; [reflexivity|constructor].
Qed.

(** X3. Whatever the collaborators do, what [document_qna_tool] returns is
    "No text found in the PDF.", or "Answer: " followed by a stripped
    generated text, or "Error processing document QnA: " followed by the
    text of an exception. *)
Theorem document_qna_tool_output_forms pdf_path question w :
  exists out,
    fst (document_qna_tool score_leb svc pdf_path question w) = inr out /\
    (out = "No text found in the PDF."%string \/
     (exists g, out = ("Answer: " ++ strip (generated_text g))%string) \/
     (exists e,
         out = ("Error processing document QnA: " ++ str_e e)%string)).
Proof.
  destruct (tool_output_of_run pdf_path question w) as (out & Hrun & Hout).
  exists out. split; [exact Hrun|].
  destruct Hout as [|g|e]; [now left|right; left; now exists g|].
  right; right; now exists e.
Qed.

Lemma last_extract_pages pages :
  forall n acc, fault_is_last (extract_pages pages n acc).
Proof.
  induction pages as [|page rest IH]; intros n acc; simpl.
  - apply last_ret.
  - unfold get_text. apply last_bind; [last_steps|].
    intros text. destruct (truthy (strip text)); apply IH.
Qed.

Lemma last_silent {A} (m : M A) :
  (forall w, trace (snd (m w)) = trace w) ->
  (forall w, exists a, fst (m w) = inr a) ->
  fault_is_last m.
Proof.
  intros Hm Hr w. exists []. rewrite app_nil_r. split; [apply Hm|].
  destruct (Hr w) as [a ->]. apply no_fault_nil.
Qed.

Lemma last_body pdf_path question :
  fault_is_last (document_qna_body score_leb svc pdf_path question).
Proof.
  unfold document_qna_body, extract_text, fitz_open_call.
  apply last_bind.
  - apply last_bind.
    + apply last_bind; [last_steps|]. intros _.
      apply last_bind; [last_steps|]. intros pages.
      apply last_silent; intros w; [reflexivity|]. now eexists.
    + intros doc. apply last_bind; [apply last_extract_pages|].
      intros chunks. apply last_bind; [|intros _; apply last_ret].
      intros w. exists [EvDocClose (doc_path doc)]. simpl.
      split; [reflexivity|]. intros e [H|[]]. discriminate.
  - intros [|c cs]; [apply last_ret|].
    unfold semantic_search, similarity_scores, encode_list, encode_str,
      pytorch_cos_sim, answer_question, qa_pipeline_call.
    assert (Hargmax : forall l, fault_is_last (argmax score_leb l))
      by (intros [|x l]; simpl; [apply last_raise|apply last_ret]).
    repeat first
      [ apply last_bind; [|intros ?]
      | apply Hargmax
      | apply last_ret
      | apply last_getitem
      | apply last_outcome
      | apply last_emit; discriminate ].
Qed.

(** X4. A fault is terminal.  When a collaborator raises, nothing is
    called afterwards (no retry, no later page, no model): the fault is the
    last event of the run and the only one, and the tool returns
    "Error processing document QnA: " followed by its text. *)
Theorem fault_ends_the_run pdf_path question w :
  exists out new,
    fst (document_qna_tool score_leb svc pdf_path question w) = inr out /\
    trace (snd (document_qna_tool score_leb svc pdf_path question w))
    = trace w ++ new /\
    (no_fault new \/
     exists before e,
       new = before ++ [EvRaised e] /\ no_fault before /\
       out = ("Error processing document QnA: " ++ str_e e)%string).
Proof.
  destruct (last_body pdf_path question w) as (new & Htrace & Hlast).
  unfold document_qna_tool, try_except.
  destruct (document_qna_body score_leb svc pdf_path question w)
    as [[e|out] w1]; simpl in *.
  - exists ("Error processing document QnA: " ++ str_e e)%string, new.
    split; [reflexivity|]. split; [exact Htrace|].
    destruct Hlast as [Hquiet|(before & -> & Hquiet)]; [now left|].
    right. now exists before, e.
  - exists out, new. split; [reflexivity|]. split; [exact Htrace|now left].
Qed.

Lemma split_after_prefix (P : event -> bool) l1 :
  Forall (fun ev => P ev = false) l1 ->
  forall l2 before ev after,
    l1 ++ l2 = before ++ ev :: after -> P ev = true ->
    exists mid, before = l1 ++ mid.
Proof.
  induction 1 as [|a l1 Ha _ IH]; intros l2 before ev after Heq Hev.
  - now exists before.
  - destruct before as [|b before]; simpl in Heq; injection Heq as -> Heq.
    + congruence.
    + destruct (IH l2 before ev after Heq Hev) as [mid ->].
      now exists mid.
Qed.

Lemma extract_text_trace pdf_path w :
  exists n1,
    trace (snd (extract_text svc pdf_path w)) = trace w ++ n1 /\
    Forall quiet n1 /\
    (forall chunks, fst (extract_text svc pdf_path w) = inr chunks ->
                    In (EvDocClose pdf_path) n1).
Proof.
  rewrite extract_text_run.
  destruct (fitz_open svc pdf_path) as [e|pages]; simpl.
  - exists [EvFitzOpen pdf_path; EvRaised e].
    split; [reflexivity|]. split; [repeat constructor|discriminate].
  - set (w1 := mkWorld _ _).
    destruct (emits_extract_pages quiet pages (fun _ => eq_refl)
                (fun _ => eq_refl) 0 [] w1) as (n & Hn & Hquiet).
    destruct (extract_pages pages 0 [] w1) as [[e|chunks] w2]; simpl in *.
    + exists (EvFitzOpen pdf_path :: n). rewrite Hn, <- app_assoc.
      split; [reflexivity|]. split; [now constructor|].
      intros chunks H. discriminate H.
    + exists (EvFitzOpen pdf_path :: n ++ [EvDocClose pdf_path]).
      rewrite Hn, <- !app_assoc. split; [reflexivity|]. split.
      * constructor; [reflexivity|]. apply Forall_app. split; [exact Hquiet|].
        now constructor.
      * intros _ _. right. apply in_or_app. right. now left.
Qed.

(** X5. The models are only called once the document has been closed: in
    every run, each call to the encoder or to the generation model comes
    after the [doc.close()] of the document the run opened. *)
Theorem models_called_after_close pdf_path question w :
  exists new,
    trace (snd (document_qna_tool score_leb svc pdf_path question w))
    = trace w ++ new /\
    forall before ev after,
      new = before ++ ev :: after -> calls_model ev = true ->
      In (EvDocClose pdf_path) before.
Proof.
  destruct (extract_text_trace pdf_path w) as (n1 & Ht1 & Hquiet & Hclose).
  assert (Hnone : forall before ev after,
             n1 = before ++ ev :: after -> calls_model ev = true -> False).
  { intros before ev after -> Hev.
    apply Forall_app in Hquiet. destruct Hquiet as [_ Hq].
    inversion Hq; subst. congruence. }
  unfold document_qna_tool, try_except, document_qna_body, bind at 1.
  destruct (extract_text svc pdf_path w) as [[e|[|c cs]] w1]; simpl in *.
  - exists n1. split; [exact Ht1|]. intros before ev after Heq Hev.
    destruct (Hnone before ev after Heq Hev).
  - exists n1. split; [exact Ht1|]. intros before ev after Heq Hev.
    destruct (Hnone before ev after Heq Hev).
  - set (rest := bind _ _).
    assert (Hrest : exists n2, trace (snd (rest w1)) = trace w1 ++ n2).
    { destruct (disciplined_bind _ _
                  (disciplined_semantic_search _ _ score_leb svc (c :: cs)
                                               question)
                  (fun found => disciplined_answer_question _ _ svc
                                  (snd found) question) w1)
        as (n2 & Hn2 & _).
      now exists n2. }
    destruct Hrest as (n2 & Hn2).
    exists (n1 ++ n2). split.
    + destruct (rest w1) as [[e|out] w2]; simpl in *;
        now rewrite Hn2, Ht1, app_assoc.
    + intros before ev after Heq Hev.
      destruct (split_after_prefix calls_model n1 Hquiet n2 before ev after
                  Heq Hev) as [mid ->].
      apply in_or_app. left. now apply (Hclose (c :: cs)).
Qed.

(** X6. When extraction gave chunks and the search selected
    [best_context], but the generation model returns an empty list of
    generations, the indexing of line 117 raises and the tool returns
    "Error processing document QnA: list index out of range". *)
Theorem empty_generation_is_reported
        pdf_path question text_chunks i best_context w w1 w2 :
  extract_text svc pdf_path w = (inr text_chunks, w1) ->
  text_chunks <> [] ->
  semantic_search score_leb svc text_chunks question w1
  = (inr (i, best_context), w2) ->
  qa_pipeline svc (make_prompt best_context question) 100%Z = inr [] ->
  document_qna_tool score_leb svc pdf_path question w
  = (inr "Error processing document QnA: list index out of range"%string,
     logged w2 [EvQaPipeline (make_prompt best_context question) 100%Z]).
Proof.
  intros Hext Hne Hsearch Hgen.
  unfold document_qna_tool, try_except, document_qna_body, bind.
  rewrite Hext. destruct text_chunks as [|c cs]; [congruence|].
  rewrite Hsearch. simpl snd.
  unfold answer_question, qa_pipeline_call, bind, emit.
  simpl. rewrite Hgen. reflexivity.
Qed.

End PipelineExtras.

Lemma empty_generation_is_reported_witness :
  exists w',
    document_qna_tool Z.leb DemoTools.silent_services "two.pdf" Demo.question
                      initial_world
    = (inr "Error processing document QnA: list index out of range"%string,
       w').
Proof.
  eexists.
  eapply (empty_generation_is_reported Z Z Z.leb DemoTools.silent_services
            "two.pdf" Demo.question [Demo.paris; Demo.berlin] 1 Demo.berlin
            initial_world).
  - reflexivity.
  - discriminate.
  - reflexivity.
  - reflexivity.
Defined.

Lemma handle_released_when_pages_extract_witness :
  open_docs (snd (document_qna_tool Z.leb Demo.demo_services "two.pdf"
                                    Demo.question initial_world))
  = [].
Proof.
  apply (handle_released_when_pages_extract Z Z Z.leb Demo.demo_services
           "two.pdf" Demo.question initial_world).
  intros pages Hopen. injection Hopen as <-.
  intros e [H|[H|[H|[]]]]; discriminate H.
Defined.

Lemma handle_left_open_when_page_raises_witness :
  open_docs (snd (document_qna_tool Z.leb Demo.demo_services "broken.pdf"
                                    Demo.question initial_world))
  = ["broken.pdf"%string].
Proof.
  apply (handle_left_open_when_page_raises Z Z Z.leb Demo.demo_services
           "broken.pdf" Demo.question initial_world
           [inr Demo.paris; inl Demo.boom] Demo.boom).
  - reflexivity.
  - right. now left.
Defined.

(** ** More on the dispatch layer *)

(** X9. A query made of whitespace only (or empty) makes [process_input]
    answer at once: no tool is looked up, the agent is not run, nothing is
    printed, and the world is left as it was.  The text returned depends
    only on whether a file came with it. *)
Theorem blank_query_makes_no_call any_agent query pdf_file w :
  all_space query = true ->
  GradioUI.process_input any_agent query pdf_file w
  = (inr (PyStr
            (match pdf_file with
             | Some _ =>
                 "Please enter a question in the textbox to ask about the uploaded PDF."
             | None =>
                 "Please enter a request or upload a document for analysis."
             end)%string),
     w).
Proof.
  intros Hblank. apply strip_empty_iff in Hblank.
  apply has_text_false_iff in Hblank.
  unfold GradioUI.process_input. rewrite Hblank.
  now destruct pdf_file.
Qed.

Lemma blank_query_makes_no_call_witness :
  GradioUI.process_input Demo.demo_agent ("  " ++ nl)%string
                         (Some (GradioUI.mkFile "two.pdf")) initial_world
  = (inr (PyStr "Please enter a question in the textbox to ask about the uploaded PDF."),
     initial_world).
Proof.
  apply (blank_query_makes_no_call Demo.demo_agent ("  " ++ nl)%string
           (Some (GradioUI.mkFile "two.pdf")) initial_world).
  reflexivity.
Defined.

Section DispatchExtras.

Variables vector score : Type.
Variable score_leb : score -> score -> bool.
Variable svc : services vector score.
Variables get_current_time_in_timezone get_current_weather
          image_generation_tool search_tool final_answer : GradioUI.tool.
Variable agent_loop : string -> M pyvalue.

Local Abbreviation app_agent :=
  (agent score_leb svc get_current_time_in_timezone get_current_weather
         image_generation_tool search_tool final_answer agent_loop).

(** X10. With a file and a query that is not empty once stripped,
    [process_input] of the application's agent never reaches
    [document_qna_tool]: the agent keeps its tools in a dict keyed by name,
    [agent.tools[4]] raises [KeyError(4)], and the reply is
    "An error occurred during Document Q&A: 4".  Nothing but the four
    printed lines happens: no document is opened, no model is called, the
    agent is not run. *)
Theorem app_agent_never_reaches_the_document_tool query pdf_file w :
  strip query <> ""%string ->
  GradioUI.process_input app_agent query (Some pdf_file) w
  = (inr (PyStr "An error occurred during Document Q&A: 4"),
     printed w
       [("PDF file uploaded: " ++ GradioUI.name pdf_file)%string;
        ("Query (assumed question for PDF): " ++ query)%string;
        "Detected PDF upload and query. Calling document_qna_tool..."%string;
        "Error during Document Q&A tool execution: 4"%string]).
Proof.
  intros Hquery. apply has_text_iff in Hquery.
  unfold GradioUI.process_input. rewrite Hquery.
  rewrite (ask_document_dict app_agent _ query pdf_file w eq_refl).
  unfold announced, printed. now rewrite logged_logged.
Qed.

End DispatchExtras.

Lemma app_agent_never_reaches_the_document_tool_witness :
  strip Demo.question <> ""%string /\
  GradioUI.process_input Demo.demo_agent Demo.question
                         (Some (GradioUI.mkFile "two.pdf")) initial_world
  = (inr (PyStr "An error occurred during Document Q&A: 4"),
     printed initial_world
       ["PDF file uploaded: two.pdf"%string;
        "Query (assumed question for PDF): What is the capital of Germany?"%string;
        "Detected PDF upload and query. Calling document_qna_tool..."%string;
        "Error during Document Q&A tool execution: 4"%string]).
Proof.
  assert (Hq : strip Demo.question <> ""%string)
    by (vm_compute; discriminate).
  split; [exact Hq|].
  apply (app_agent_never_reaches_the_document_tool Z Z Z.leb
           Demo.demo_services Demo.noop_tool Demo.noop_tool Demo.noop_tool
           Demo.noop_tool Demo.noop_tool Demo.demo_loop Demo.question
           (GradioUI.mkFile "two.pdf") initial_world Hq).
Defined.

(** X17. With a file, a query that is not empty once stripped, and an
    agent that keeps its tools in a list, [process_input] takes the entry
    at index 4 and calls it with the path of the file and the query: its
    response is returned as it is; when the list has no index 4, or the tool
    raises an [IndexError], the reply is the fixed "tool not found"
    message; any other exception of the tool becomes
    "An error occurred during Document Q&A: " and its text. *)
Theorem list_agent_calls_index_4 any_agent items query pdf_file w :
  GradioUI.tools any_agent = GradioUI.ToolList items ->
  strip query <> ""%string ->
  GradioUI.process_input any_agent query (Some pdf_file) w
  = match nth_error items 4 with
    | None =>
        (inr (PyStr "Error: Document Q&A tool not found at the expected index (4). Check agent tool setup in app.py."),
         announced w query pdf_file)
    | Some document_qna =>
        match GradioUI.call document_qna (GradioUI.name pdf_file) query
                            (announced w query pdf_file)
        with
        | (inr response, w2) =>
            (inr response, printed w2 ["Document Q&A tool finished."%string])
        | (inl e, w2) =>
            if is_IndexError e
            then (inr (PyStr "Error: Document Q&A tool not found at the expected index (4). Check agent tool setup in app.py."),
                  w2)
            else (inr (PyStr ("An error occurred during Document Q&A: "
                              ++ str_e e)%string),
                  printed w2
                    [("Error during Document Q&A tool execution: "
                      ++ str_e e)%string])
        end
    end.
Proof.
  intros Htools Hquery. apply has_text_iff in Hquery.
  unfold GradioUI.process_input. rewrite Hquery.
  rewrite ask_document_run, Htools. unfold GradioUI.subscript, getitem.
  destruct (nth_error items 4) as [document_qna|]; reflexivity.
Qed.

Lemma list_agent_calls_index_4_witness :
  GradioUI.process_input Demo.list_agent Demo.question
                         (Some (GradioUI.mkFile "two.pdf")) initial_world
  = (inr (PyStr "Answer: Berlin"),
     printed
       (snd (document_qna_tool Z.leb Demo.demo_services "two.pdf"
               Demo.question
               (announced initial_world Demo.question
                          (GradioUI.mkFile "two.pdf"))))
       ["Document Q&A tool finished."%string]).
Proof.
  rewrite (list_agent_calls_index_4 Demo.list_agent _ Demo.question
             (GradioUI.mkFile "two.pdf") initial_world eq_refl).
  - reflexivity.
  - vm_compute. discriminate.
Defined.

(** X18. With no file and a query that is not empty once stripped,
    [process_input] hands the query, as it is, to [agent.run]: the response
    is returned unchanged, whatever kind of object it is, and an exception
    becomes "An error occurred while processing your request: " and its
    text.  No tool is looked up. *)
Theorem request_goes_to_agent_run any_agent query w :
  strip query <> ""%string ->
  GradioUI.process_input any_agent query None w
  = match GradioUI.run any_agent query
            (logged w
               [EvPrint ("No PDF file or query is for general task. Processing with agent.run(): "
                         ++ query)%string;
                EvAgentRun query])
    with
    | (inr response, w2) =>
        (inr response,
         printed w2 ["Agent.run finished for general query."%string])
    | (inl e, w2) =>
        (inr (PyStr ("An error occurred while processing your request: "
                     ++ str_e e)%string),
         printed w2 [("Error during agent.run: " ++ str_e e)%string])
    end.
Proof.
  intros Hquery. apply has_text_iff in Hquery.
  unfold GradioUI.process_input. rewrite Hquery. apply ask_agent_run.
Qed.

Lemma request_goes_to_agent_run_witness :
  fst (GradioUI.process_input Demo.demo_agent "hello" None initial_world)
  = inr (PyStr "done: hello").
Proof.
  rewrite (request_goes_to_agent_run Demo.demo_agent "hello" initial_world).
  - reflexivity.
  - vm_compute. discriminate.
Defined.


(** ** The weather and time tools *)

Section WeatherFacts.

Variable number : Type.
Variable str_other : Tools.json number -> string.
Variable type_error_text : Tools.json number -> string.
Variable requests_get :
  string -> list (string * option string) -> Tools.result (Tools.response number).
Variable API_KEY : option string.

Local Abbreviation weather :=
  (Tools.get_current_weather str_other type_error_text requests_get API_KEY).
Local Abbreviation the_request place :=
  (requests_get "https://api.openweathermap.org/data/2.5/weather"%string
                [("q"%string, Some place); ("appid"%string, API_KEY);
                 ("units"%string, Some "metric"%string)]).
Local Abbreviation fetch_error place e :=
  ("Error fetching weather data for '" ++ place ++ "': " ++ str_e e)%string.

(** X11. [get_current_weather] returns a string on every path, and a
    report ("Weather in ...") only for an answer of status 200; for any
    other status it returns "Error: " and a message, and every failure on
    the way becomes "Error fetching weather data for '<place>': " and the
    text of the exception. *)
Theorem get_current_weather_output_forms place :
  exists out,
    weather place = inr out /\
    ((exists response d t h s,
         the_request place = inr response /\
         Tools.status_code response = 200%Z /\
         out = Tools.weather_report str_other place d t h s) \/
     (exists response m,
         the_request place = inr response /\
         Tools.status_code response <> 200%Z /\
         out = ("Error: " ++ Tools.format str_other m)%string) \/
     (exists e, out = fetch_error place e)).
Proof.
  unfold Tools.get_current_weather, Tools.rescue,
    Tools.get_current_weather_body, Tools.weather_url.
  destruct (the_request place) as [e|response] eqn:Hget; simpl.
  { eexists. split; [reflexivity|]. right; right. now exists e. }
  destruct (Tools.json_body response) as [e|data]; simpl.
  { eexists. split; [reflexivity|]. right; right. now exists e. }
  destruct (Z.eqb_spec (Tools.status_code response) 200) as [Hs|Hs].
  - repeat match goal with
           | |- context [Tools.and_then ?r _] =>
               destruct r as [?e|?v]; simpl;
               [eexists; split; [reflexivity|]; right; right;
                eexists; reflexivity|]
           end.
    eexists. split; [reflexivity|]. left.
    exists response. do 4 eexists. repeat split; [exact Hs].
  - destruct (Tools.subscript type_error_text data "message") as [e|m];
      simpl.
    + eexists. split; [reflexivity|]. right; right. now exists e.
    + eexists. split; [reflexivity|]. right; left.
      exists response, m. now repeat split.
Qed.

(** X12. For an answer of status 200 whose JSON holds the fields the tool
    reads (weather[0].description, main.temp, main.humidity, wind.speed),
    the result is the five-line report with the place and those four
    values, strings as they are and other values as [str] gives them. *)
Theorem get_current_weather_report place response data d t h s :
  the_request place = inr response ->
  Tools.status_code response = 200%Z ->
  Tools.json_body response = inr data ->
  Tools.weather_fields data d t h s ->
  weather place
  = inr ("Weather in " ++ place ++ ":" ++ nl
         ++ "- Condition: " ++ Tools.format str_other d ++ nl
         ++ "- Temperature: " ++ Tools.format str_other t
         ++ Tools.degree ++ "C" ++ nl
         ++ "- Humidity: " ++ Tools.format str_other h ++ "%" ++ nl
         ++ "- Wind Speed: " ++ Tools.format str_other s ++ " m/s")%string.
Proof.
  intros Hget Hs Hbody (w0 & rest & main & wind & Hdata & Hw & Hmain & Hwind).
  unfold Tools.get_current_weather, Tools.rescue,
    Tools.get_current_weather_body, Tools.weather_url.
  rewrite Hget. simpl. rewrite Hbody. simpl. rewrite Hs. simpl.
  destruct data as [| | | | |members]; try contradiction.
  destruct Hdata as (Hweather & Hm & Hwd).
  destruct w0 as [| | | | |wmembers]; try contradiction.
  destruct main as [| | | | |mmembers]; try contradiction.
  destruct wind as [| | | | |dmembers]; try contradiction.
  destruct Hmain as [Htemp Hhum].
  simpl. rewrite Hweather. simpl. rewrite Hw. simpl.
  rewrite Hm. simpl. rewrite Htemp. simpl. rewrite Hhum. simpl.
  rewrite Hwd. simpl. rewrite Hwind. reflexivity.
Qed.

(** X13. For an answer of another status than 200 whose JSON is an object
    with a "message", the result is "Error: " and that message; when the
    object has no "message" the lookup raises and the result is the fetch
    error with the text of the [KeyError]. *)
Theorem get_current_weather_api_error place response members :
  the_request place = inr response ->
  Tools.status_code response <> 200%Z ->
  Tools.json_body response = inr (Tools.JObject members) ->
  weather place
  = inr (match Tools.lookup "message" members with
         | Some m => "Error: " ++ Tools.format str_other m
         | None => "Error fetching weather data for '" ++ place
                   ++ "': 'message'"
         end)%string.
Proof.
  intros Hget Hs Hbody.
  unfold Tools.get_current_weather, Tools.rescue,
    Tools.get_current_weather_body, Tools.weather_url.
  rewrite Hget. simpl. rewrite Hbody. simpl.
  apply Z.eqb_neq in Hs. rewrite Hs. simpl.
  destruct (Tools.lookup "message" members); reflexivity.
Qed.

(** X14. For an answer of status 200 whose "weather" list is empty, the
    indexing of line 41 raises and the result is the fetch error
    "list index out of range"; when there is no "weather" at all it is the
    fetch error with the text of the [KeyError]. *)
Theorem get_current_weather_without_conditions place response members :
  the_request place = inr response ->
  Tools.status_code response = 200%Z ->
  Tools.json_body response = inr (Tools.JObject members) ->
  (Tools.lookup "weather" members = Some (Tools.JArray []) ->
   weather place
   = inr ("Error fetching weather data for '" ++ place
          ++ "': list index out of range")%string) /\
  (Tools.lookup "weather" members = None ->
   weather place
   = inr ("Error fetching weather data for '" ++ place
          ++ "': 'weather'")%string).
Proof.
  intros Hget Hs Hbody.
  unfold Tools.get_current_weather, Tools.rescue,
    Tools.get_current_weather_body, Tools.weather_url.
  rewrite Hget. simpl. rewrite Hbody. simpl. rewrite Hs. simpl.
  split; intros ->; reflexivity.
Qed.

(** X15. When the request itself raises, or the body of the answer is not
    JSON (whatever its status), the result is the fetch error with the text
    of that exception. *)
Theorem get_current_weather_transport_error place e :
  the_request place = inl e \/
  (exists response,
      the_request place = inr response /\
      Tools.json_body response = inl e) ->
  weather place = inr (fetch_error place e).
Proof.
  unfold Tools.get_current_weather, Tools.rescue,
    Tools.get_current_weather_body, Tools.weather_url.
  intros [Hget|(response & Hget & Hbody)]; rewrite Hget; simpl;
    [reflexivity|]. now rewrite Hbody.
Qed.

End WeatherFacts.

Section ClockFacts.

Variables tzinfo datetime : Type.
Variable pytz_timezone : string -> Tools.result tzinfo.
Variable now : tzinfo -> datetime.
Variable strftime : datetime -> string -> string.

(** X16. [get_current_time_in_timezone] returns a string on every path:
    for a name pytz knows, the sentence with the name and the clock of
    that zone formatted with "%Y-%m-%d %H:%M:%S"; for a name pytz rejects,
    "Error fetching time for timezone '<name>': " and the text of the
    exception. *)
Theorem get_current_time_output_forms timezone :
  exists out,
    Tools.get_current_time_in_timezone pytz_timezone now strftime timezone
    = inr out /\
    ((exists tz,
         pytz_timezone timezone = inr tz /\
         out = ("The current local time in " ++ timezone ++ " is: "
                ++ strftime (now tz) "%Y-%m-%d %H:%M:%S")%string) \/
     (exists e,
         pytz_timezone timezone = inl e /\
         out = ("Error fetching time for timezone '" ++ timezone ++ "': "
                ++ str_e e)%string)).
Proof.
  unfold Tools.get_current_time_in_timezone, Tools.rescue, Tools.and_then.
  destruct (pytz_timezone timezone) as [e|tz]; eexists;
    (split; [reflexivity|]); [right; now exists e|left; now exists tz].
Qed.

End ClockFacts.

Example weather_in_london :
  Tools.get_current_weather DemoTools.str_other DemoTools.type_error_text
                            DemoTools.requests_get (Some "key"%string)
                            "London"
  = inr ("Weather in London:" ++ nl
         ++ "- Condition: clear sky" ++ nl
         ++ "- Temperature: 21.5" ++ Tools.degree ++ "C" ++ nl
         ++ "- Humidity: 60%" ++ nl
         ++ "- Wind Speed: 3.6 m/s")%string.
Proof. reflexivity. Qed.

Example weather_unreachable :
  Tools.get_current_weather DemoTools.str_other DemoTools.type_error_text
                            DemoTools.requests_get None "Atlantis"
  = inr "Error fetching weather data for 'Atlantis': connection refused"%string.
Proof. reflexivity. Qed.

Lemma get_current_weather_report_witness :
  Tools.get_current_weather DemoTools.str_other DemoTools.type_error_text
                            DemoTools.requests_get (Some "key"%string)
                            "London"
  = inr ("Weather in London:" ++ nl
         ++ "- Condition: clear sky" ++ nl
         ++ "- Temperature: 21.5" ++ Tools.degree ++ "C" ++ nl
         ++ "- Humidity: 60%" ++ nl
         ++ "- Wind Speed: 3.6 m/s")%string.
Proof.
  apply (get_current_weather_report Z DemoTools.str_other
           DemoTools.type_error_text DemoTools.requests_get
           (Some "key"%string) "London"
           (Tools.mkResponse 200%Z (inr DemoTools.london)) DemoTools.london
           (Tools.JString "clear sky") (Tools.JNumber 21%Z)
           (Tools.JNumber 60%Z) (Tools.JNumber 3%Z)).
  - reflexivity.
  - reflexivity.
  - reflexivity.
  - exists (Tools.JObject [("id"%string, Tools.JNumber 800%Z);
                           ("description"%string,
                            Tools.JString "clear sky")]),
      [],
      (Tools.JObject [("temp"%string, Tools.JNumber 21%Z);
                      ("humidity"%string, Tools.JNumber 60%Z)]),
      (Tools.JObject [("speed"%string, Tools.JNumber 3%Z)]).
    repeat split.
Defined.

Lemma get_current_weather_api_error_witness :
  Tools.get_current_weather DemoTools.str_other DemoTools.type_error_text
                            DemoTools.requests_get (Some "key"%string)
                            "Nowhere"
  = inr "Error: city not found"%string.
Proof.
  apply (get_current_weather_api_error Z DemoTools.str_other
           DemoTools.type_error_text DemoTools.requests_get
           (Some "key"%string) "Nowhere"
           (Tools.mkResponse 404%Z (inr DemoTools.not_found))
           [("cod"%string, Tools.JString "404");
            ("message"%string, Tools.JString "city not found")]).
  - reflexivity.
  - discriminate.
  - reflexivity.
Defined.

Lemma get_current_weather_without_conditions_witness :
  Tools.get_current_weather DemoTools.str_other DemoTools.type_error_text
                            DemoTools.requests_get (Some "key"%string)
                            "Empty"
  = inr "Error fetching weather data for 'Empty': list index out of range"%string.
Proof.
  apply (get_current_weather_without_conditions Z DemoTools.str_other
           DemoTools.type_error_text DemoTools.requests_get
           (Some "key"%string) "Empty"
           (Tools.mkResponse 200%Z (inr DemoTools.no_weather))
           [("weather"%string, Tools.JArray []);
            ("main"%string,
             Tools.JObject [("temp"%string, Tools.JNumber 21%Z);
                            ("humidity"%string, Tools.JNumber 60%Z)]);
            ("wind"%string,
             Tools.JObject [("speed"%string, Tools.JNumber 3%Z)])]);
    reflexivity.
Defined.

Lemma get_current_weather_transport_error_witness :
  Tools.get_current_weather DemoTools.str_other DemoTools.type_error_text
                            DemoTools.requests_get (Some "key"%string)
                            "Gateway"
  = inr "Error fetching weather data for 'Gateway': Expecting value: line 1 column 1 (char 0)"%string.
Proof.
  apply (get_current_weather_transport_error Z DemoTools.str_other
           DemoTools.type_error_text DemoTools.requests_get
           (Some "key"%string) "Gateway"
           (mkException (OtherError "JSONDecodeError")
                        "Expecting value: line 1 column 1 (char 0)")).
  right. eexists. split; reflexivity.
Defined.
